(** * The progressive-disclosure agent of examples/agents/python-agent.py

    A shallow embedding of class [MCPAgent] and of [main], and the
    properties of the orchestration protocol proved about them.

    Conventions of the embedding.
    - A Python [str] is a [string]; each [ascii] stands for one code point
      below 256.
    - A value decoded by [json.loads] is a [value].  Python [dict]s keep
      insertion order, so a dict is an association list.
    - Python's numbers, the interpreter's [repr], [json.loads] and
      [subprocess.run] are not code of the repository: they are the fields of
      the classes [Numbers] and [Host], and every theorem holds for every
      instance.
    - An exception is a value of [exn]; a method of the agent is a function
      of the monad [M], which threads the list of commands handed to
      [subprocess.run] so far and stops at the first exception.
    - [print] only writes to the diagnostic stream.  The text it writes is
      not modelled; the sub-expressions of its f-string are evaluated, since
      they can raise. *)

From Stdlib Require Import String Ascii List ZArith Bool Lia DecimalString.
Import ListNotations.
Open Scope string_scope.
Set Warnings "-register-all".

(** ** Python values *)

(** Python's [int] and [float] values, as [json.loads] decodes JSON numbers:
    truth value, [==], the number [True] and [False] are equal to, and the
    text [json.dumps] writes. *)
Class Numbers : Type := {
  number : Type;
  num_truthy : number -> bool;
  num_eqb : number -> number -> bool;
  num_of_bool : bool -> number;
  num_json : number -> string
}.

Inductive value {N : Numbers} : Type :=
| PyNone
| PyBool (b : bool)
| PyNum (n : number)
| PyStr (s : string)
| PyList (l : list value)
| PyDict (d : list (string * value)).

Definition dict {N : Numbers} : Type := list (string * value).

(** The subscript of [x[...]]: the program only writes string keys and the
    literal index 0. *)
Inductive subscript : Type :=
| Key (k : string)
| Index (i : nat).

Inductive exn : Type :=
| RuntimeError (msg : string)
| ValueError (msg : string)
| KeyError (key : subscript)
| IndexError
| TypeError
| AttributeError.

Inductive result (A : Type) : Type :=
| Ok (a : A)
| Raise (e : exn).
Arguments Ok {A} a.
Arguments Raise {A} e.

(** The double quote, which a string literal of this file cannot hold. *)
Definition dq : string := String "034"%char EmptyString.
Definition backslash : string := String "092"%char EmptyString.

Section Values.
Context {N : Numbers}.

(** [bool(v)]. *)
Definition py_truthy (v : value) : bool :=
  match v with
  | PyNone => false
  | PyBool b => b
  | PyNum n => num_truthy n
  | PyStr s => negb (s =? "")
  | PyList l => match l with [] => false | _ => true end
  | PyDict d => match d with [] => false | _ => true end
  end.

Fixpoint dict_lookup (k : string) (d : dict) : option value :=
  match d with
  | [] => None
  | (k', v) :: rest => if k =? k' then Some v else dict_lookup k rest
  end.

(** [d[k] = v]: an existing key keeps its place. *)
Fixpoint dict_set (k : string) (v : value) (d : dict) : dict :=
  match d with
  | [] => [(k, v)]
  | (k', v') :: rest =>
      if k =? k' then (k, v) :: rest else (k', v') :: dict_set k v rest
  end.

(** [x.get(k, default)]: only a dict has the method. *)
Definition py_get (x : value) (k : string) (default : value) : result value :=
  match x with
  | PyDict d =>
      match dict_lookup k d with
      | Some v => Ok v
      | None => Ok default
      end
  | _ => Raise AttributeError
  end.

Definition chars (s : string) : list string :=
  map (fun c => String c EmptyString) (list_ascii_of_string s).

(** [x[sub]]. *)
Definition py_getitem (x : value) (sub : subscript) : result value :=
  match x, sub with
  | PyDict d, Key k =>
      match dict_lookup k d with
      | Some v => Ok v
      | None => Raise (KeyError sub)
      end
  | PyDict _, Index _ => Raise (KeyError sub)
  | PyList l, Index i =>
      match nth_error l i with
      | Some v => Ok v
      | None => Raise IndexError
      end
  | PyStr s, Index i =>
      match nth_error (chars s) i with
      | Some c => Ok (PyStr c)
      | None => Raise IndexError
      end
  | _, _ => Raise TypeError
  end.

(** [l[i]] on a list the program built itself. *)
Definition list_getitem (l : list value) (i : nat) : result value :=
  match nth_error l i with
  | Some v => Ok v
  | None => Raise IndexError
  end.

(** [len(x)]. *)
Definition py_len (x : value) : result nat :=
  match x with
  | PyStr s => Ok (String.length s)
  | PyList l => Ok (List.length l)
  | PyDict d => Ok (List.length d)
  | _ => Raise TypeError
  end.

(** What [for t in x] goes through. *)
Definition py_iter (x : value) : result (list value) :=
  match x with
  | PyStr s => Ok (map PyStr (chars s))
  | PyList l => Ok l
  | PyDict d => Ok (map (fun kv => PyStr (fst kv)) d)
  | _ => Raise TypeError
  end.

Fixpoint join_strs (sep : string) (l : list value) : result string :=
  match l with
  | [] => Ok ""
  | [PyStr s] => Ok s
  | PyStr s :: rest =>
      match join_strs sep rest with
      | Ok r => Ok (s ++ sep ++ r)
      | Raise e => Raise e
      end
  | _ :: _ => Raise TypeError
  end.

(** [sep.join(x)]: every item must be a [str]. *)
Definition py_join (sep : string) (x : value) : result string :=
  match py_iter x with
  | Ok items => join_strs sep items
  | Raise e => Raise e
  end.

(** [a == b] on decoded JSON.  [True] and [False] compare as the numbers 1
    and 0; dicts compare as mappings, whatever the order of their keys. *)
Fixpoint py_eq (a b : value) {struct a} : bool :=
  match a, b with
  | PyNone, PyNone => true
  | PyBool x, PyBool y => Bool.eqb x y
  | PyBool x, PyNum n => num_eqb (num_of_bool x) n
  | PyNum n, PyBool y => num_eqb n (num_of_bool y)
  | PyNum n, PyNum m => num_eqb n m
  | PyStr s, PyStr t => s =? t
  | PyList l, PyList l' =>
      (fix all2 (l l' : list value) {struct l} : bool :=
         match l, l' with
         | [], [] => true
         | x :: xs, y :: ys => py_eq x y && all2 xs ys
         | _, _ => false
         end) l l'
  | PyDict d, PyDict d' =>
      (List.length d =? List.length d')%nat &&
      (fix sub (d : list (string * value)) {struct d} : bool :=
         match d with
         | [] => true
         | (k, v) :: rest =>
             match dict_lookup k d' with
             | Some v' => py_eq v v'
             | None => false
             end && sub rest
         end) d
  | _, _ => false
  end.

(** [isinstance(data, list)]. *)
Definition is_list (v : value) : bool :=
  match v with PyList _ => true | _ => false end.

(** [isinstance(v, dict)] and [isinstance(v, str)]. *)
Definition is_dict (v : value) : bool :=
  match v with PyDict _ => true | _ => false end.

Definition is_str (v : value) : bool :=
  match v with PyStr _ => true | _ => false end.

End Values.

(** ** [json.dumps] with its default settings *)

Definition hex_digit (n : nat) : ascii :=
  match nth_error (list_ascii_of_string "0123456789abcdef") n with
  | Some c => c
  | None => "0"%char
  end.

(** One character inside a JSON string ([ensure_ascii] is on): the short
    escapes, printable ASCII as it is, anything else as a [\u] escape. *)
Definition json_escape_char (c : ascii) : string :=
  let n := nat_of_ascii c in
  if (n =? 34)%nat then backslash ++ dq
  else if (n =? 92)%nat then backslash ++ backslash
  else if (n =? 10)%nat then backslash ++ "n"
  else if (n =? 13)%nat then backslash ++ "r"
  else if (n =? 9)%nat then backslash ++ "t"
  else if (n =? 8)%nat then backslash ++ "b"
  else if (n =? 12)%nat then backslash ++ "f"
  else if ((32 <=? n) && (n <=? 126))%nat then String c EmptyString
  else backslash ++ "u00"
       ++ String (hex_digit (n / 16)) (String (hex_digit (n mod 16)) EmptyString).

Definition json_string (s : string) : string :=
  dq ++ String.concat "" (map json_escape_char (list_ascii_of_string s)) ++ dq.

Section Dumps.
Context {N : Numbers}.

Fixpoint json_dumps (v : value) : string :=
  match v with
  | PyNone => "null"
  | PyBool true => "true"
  | PyBool false => "false"
  | PyNum n => num_json n
  | PyStr s => json_string s
  | PyList l =>
      "[" ++ String.concat ", " (map json_dumps l) ++ "]"
  | PyDict d =>
      "{" ++ String.concat ", "
               ((fix items (d : list (string * value)) : list string :=
                   match d with
                   | [] => []
                   | (k, v) :: rest =>
                       (json_string k ++ ": " ++ json_dumps v) :: items rest
                   end) d)
          ++ "}"
  end.

End Dumps.

(** [s.replace(dq, backslash + dq)]: the quoting of a JSON text inside a
    command line. *)
Fixpoint escape_quotes (s : string) : string :=
  match s with
  | EmptyString => EmptyString
  | String c rest =>
      if (nat_of_ascii c =? 34)%nat
      then backslash ++ dq ++ escape_quotes rest
      else String c (escape_quotes rest)
  end.


(** ** The two regular expressions of [infer_arguments]

    A backtracking matcher for the fragment of [re] the program uses:
    literals, character classes, a greedy [?], a greedy [+] over a class and
    a capturing group. *)

Inductive regex : Type :=
| Chr (c : ascii)
| Cls (p : ascii -> bool)
| Cat (r1 r2 : regex)
| Opt (r : regex)
| Plus (p : ascii -> bool)
| Group (r : regex).

(** [lit s r]: the characters of [s], then [r]. *)
Fixpoint lit (s : string) (r : regex) : regex :=
  match s with
  | EmptyString => r
  | String c rest => Cat (Chr c) (lit rest r)
  end.

(** What a match consumed: [s] without its suffix [rest]. *)
Definition consumed (s rest : string) : string :=
  substring 0 (String.length s - String.length rest) s.

(** Zero or more characters of the class, the longest run first. *)
Fixpoint star_class (p : ascii -> bool) (s : string)
    (k : string -> option (list string)) : option (list string) :=
  match s with
  | String c rest =>
      if p c
      then match star_class p rest k with
           | Some m => Some m
           | None => k s
           end
      else k s
  | EmptyString => k s
  end.

(** [match_re r s caps k]: match [r] at the start of [s], then go on with
    [k] on the rest and the groups captured so far. *)
Fixpoint match_re (r : regex) (s : string) (caps : list string)
    (k : string -> list string -> option (list string)) : option (list string) :=
  match r with
  | Chr c =>
      match s with
      | String c' rest => if Ascii.eqb c' c then k rest caps else None
      | EmptyString => None
      end
  | Cls p =>
      match s with
      | String c' rest => if p c' then k rest caps else None
      | EmptyString => None
      end
  | Cat r1 r2 => match_re r1 s caps (fun rest caps' => match_re r2 rest caps' k)
  | Opt r1 =>
      match match_re r1 s caps k with
      | Some m => Some m
      | None => k s caps
      end
  | Plus p =>
      match s with
      | String c' rest =>
          if p c' then star_class p rest (fun rest' => k rest' caps) else None
      | EmptyString => None
      end
  | Group r1 =>
      match_re r1 s caps (fun rest caps' => k rest (caps' ++ [consumed s rest])%list)
  end.

(** A match object: group 0 (the whole match), then the captured groups. *)
Definition match_at (r : regex) (s : string) : option (list string) :=
  match_re r s [] (fun rest caps => Some (consumed s rest :: caps)).

(** [re.search]: the match at the leftmost position that has one. *)
Fixpoint re_search (r : regex) (s : string) : option (list string) :=
  match match_at r s with
  | Some m => Some m
  | None =>
      match s with
      | EmptyString => None
      | String _ rest => re_search r rest
      end
  end.

(** The groups a match of [r] is sure to capture. *)
Fixpoint min_groups (r : regex) : nat :=
  match r with
  | Cat r1 r2 => min_groups r1 + min_groups r2
  | Group r1 => S (min_groups r1)
  | _ => 0
  end.

(** What a match of [r] consumes and captures: [matched r a g] when [r]
    can match exactly the text [a], capturing the groups [g]. *)
Inductive matched : regex -> string -> list string -> Prop :=
| matched_chr (c : ascii) : matched (Chr c) (String c EmptyString) []
| matched_cls (p : ascii -> bool) (c : ascii) :
    p c = true -> matched (Cls p) (String c EmptyString) []
| matched_cat (r1 r2 : regex) (a b : string) (g1 g2 : list string) :
    matched r1 a g1 -> matched r2 b g2 ->
    matched (Cat r1 r2) (a ++ b) (g1 ++ g2)%list
| matched_opt (r : regex) (a : string) (g : list string) :
    matched r a g -> matched (Opt r) a g
| matched_skip (r : regex) : matched (Opt r) EmptyString []
| matched_plus (p : ascii -> bool) (c : ascii) (a : string) :
    p c = true -> forallb p (list_ascii_of_string a) = true ->
    matched (Plus p) (String c a) []
| matched_group (r : regex) (a : string) (g : list string) :
    matched r a g -> matched (Group r) a (g ++ [a])%list.

(** [m.group(n)]. *)
Definition py_group (m : list string) (n : nat) : result string :=
  match nth_error m n with
  | Some g => Ok g
  | None => Raise IndexError
  end.

(** [\s] on a [str] pattern, for code points below 256. *)
Definition is_space (c : ascii) : bool :=
  let n := nat_of_ascii c in
  ((9 <=? n) && (n <=? 13) || (28 <=? n) && (n <=? 32)
   || (n =? 133) || (n =? 160))%nat.

Definition is_quote (c : ascii) : bool :=
  let n := nat_of_ascii c in ((n =? 34) || (n =? 39))%nat.

(** [https?://[^\s]+] *)
Definition url_re : regex :=
  lit "http" (Cat (Opt (Chr "s")) (lit "://" (Plus (fun c => negb (is_space c))))).

(** A quote, one or more characters that are no quote (group 1), a quote. *)
Definition path_re : regex :=
  Cat (Cls is_quote) (Cat (Group (Plus (fun c => negb (is_quote c)))) (Cls is_quote)).

(** ** The host: interpreter, JSON decoder and external process *)

(** What [subprocess.run(..., capture_output=True, text=True, check=False)]
    returns. *)
Record CompletedProcess : Type := {
  returncode : Z;
  stdout : string;
  stderr : string
}.

(** What [json.loads] does with a text: it returns the decoded value, or
    raises [JSONDecodeError] on a text it rejects, or raises another
    exception (the recursion limit on a deeply nested text, the digit limit
    on a huge integer), of which [why] is the text. *)
Inductive decoded {N : Numbers} : Type :=
| Decoded (v : value)
| JSONDecodeError
| OtherError (why : string).

(** [py_repr v] is [repr(v)], which an f-string writes for a value that is no
    [str].  [json_loads s] is the outcome of [json.loads(s)].
    [subprocess_run history command] is the outcome of running [command]
    after the commands of [history]: the text of the exception when the
    process could not be run, the completed process otherwise. *)
Class Host {N : Numbers} : Type := {
  py_repr : value -> string;
  json_loads : string -> decoded;
  subprocess_run : list string -> string -> string + CompletedProcess
}.

(** ** The monad of the agent's methods *)

Definition M (A : Type) : Type := list string -> result A * list string.

Definition ret {A : Type} (a : A) : M A := fun tr => (Ok a, tr).

Definition raise {A : Type} (e : exn) : M A := fun tr => (Raise e, tr).

Definition bind {A B : Type} (m : M A) (f : A -> M B) : M B :=
  fun tr =>
    match m tr with
    | (Ok a, tr') => f a tr'
    | (Raise e, tr') => (Raise e, tr')
    end.

(** A computation of the interpreter that runs no command. *)
Definition lift {A : Type} (r : result A) : M A := fun tr => (r, tr).

(** A computation that runs no command. *)
Definition quiet {A : Type} (m : M A) : Prop := forall tr, snd (m tr) = tr.

(** A computation that runs exactly the command [c], whatever it returns. *)
Definition runs_once {A : Type} (m : M A) (c : string) : Prop :=
  forall tr, exists r, m tr = (r, (tr ++ [c])%list).

Declare Scope agent_scope.
Delimit Scope agent_scope with agent.
Notation "x <- m ;; k" := (bind m (fun x => k))
  (at level 100, m at next level, right associativity) : agent_scope.
Notation "m ;;; k" := (bind m (fun _ => k))
  (at level 100, right associativity) : agent_scope.
Open Scope agent_scope.

(** ** Class MCPAgent *)

Record MCPAgent : Type := { mcp_command : string }.

(** [MCPAgent()]: the default of [__init__]. *)
Definition default_agent : MCPAgent :=
  {| mcp_command := "deno run --allow-all src/cli.ts" |}.

(** The four failures the program raises by name. *)
Definition phase_error (label message : string) : exn :=
  RuntimeError (label ++ " failed: " ++ message).

Definition NoMatchError : exn :=
  RuntimeError "No matching tools found for the task".

Definition MalformedResponseError (raw : string) : exn :=
  ValueError ("Failed to parse MCP response: " ++ raw).

Definition TransportError (why : string) : exn :=
  RuntimeError ("Failed to execute MCP command: " ++ why).

Section Agent.
Context {N : Numbers} {W : Host}.

(** [str(v)] inside an f-string. *)
Definition py_str (v : value) : string :=
  match v with
  | PyStr s => s
  | _ => py_repr v
  end.

Definition full_command (self : MCPAgent) (command : string) : string :=
  mcp_command self ++ " " ++ command.

(** Lines 22-43. *)
Definition _exec_mcp (self : MCPAgent) (command : string) : M value :=
  fun tr =>
    let full := full_command self command in
    match subprocess_run tr full with
    | inl why => (Raise (TransportError why), (tr ++ [full])%list)
    | inr process =>
        match json_loads (stdout process) with
        | Decoded response => (Ok response, (tr ++ [full])%list)
        | JSONDecodeError =>
            (Raise (MalformedResponseError (stdout process)), (tr ++ [full])%list)
        | OtherError why => (Raise (TransportError why), (tr ++ [full])%list)
        end
    end.

(** The check every phase makes on the envelope: [response.get("success")],
    and on failure the message of [response.get("error", {})]. *)
Definition check_success (label : string) (response : value) : M unit :=
  success <- lift (py_get response "success" PyNone) ;;
  if negb (py_truthy success)
  then error <- lift (py_get response "error" (PyDict [])) ;;
       message <- lift (py_get error "message" (PyStr "Unknown error")) ;;
       raise (phase_error label (py_str message))
  else ret tt.

(** [response.get("metadata", {}).get(field, "unknown")], read for the
    progress line. *)
Definition read_metadata (response : value) (field : string) : M value :=
  metadata <- lift (py_get response "metadata" (PyDict [])) ;;
  lift (py_get metadata field (PyStr "unknown")).

Definition discover_command (task : string) : string :=
  "discover " ++ dq ++ task ++ dq.

(** Lines 45-73. *)
Definition discover (self : MCPAgent) (task : string) : M value :=
  response <- _exec_mcp self (discover_command task) ;;
  check_success "Discovery" response ;;;
  result <- lift (py_get response "data" (PyDict [])) ;;
  matches <- lift (py_get result "matches" (PyList [])) ;;
  lift (py_len matches) ;;;
  suggested <- lift (py_get result "suggested_batch" PyNone) ;;
  (if py_truthy suggested
   then batch <- lift (py_getitem result (Key "suggested_batch")) ;;
        lift (py_getitem batch (Key "server")) ;;;
        operations <- lift (py_getitem batch (Key "operations")) ;;
        lift (py_len operations) ;;;
        ret tt
   else ret tt) ;;;
  read_metadata response "tokensEstimate" ;;;
  ret result.

Definition schema_command (server : value) (tool_list : string) : string :=
  "tools schema " ++ py_str server ++ " " ++ tool_list.

(** Line 92: [data if isinstance(data, list) else [data]]. *)
Definition normalize_schemas (data : value) : list value :=
  match data with
  | PyList l => l
  | _ => [data]
  end.

(** Lines 75-97. *)
Definition load_schemas (self : MCPAgent) (server tools : value) : M (list value) :=
  lift (py_len tools) ;;;
  tool_list <- lift (py_join " " tools) ;;
  response <- _exec_mcp self (schema_command server tool_list) ;;
  check_success "Schema loading" response ;;;
  data <- lift (py_get response "data" PyNone) ;;
  let schemas := normalize_schemas data in
  read_metadata response "tokensEstimate" ;;;
  ret schemas.

Definition exec_command (server tool : value) (args : dict) : string :=
  "tools exec " ++ py_str server ++ " " ++ py_str tool ++ " --args "
  ++ dq ++ escape_quotes (json_dumps (PyDict args)) ++ dq.

(** Lines 99-117. *)
Definition exec_tool (self : MCPAgent) (server tool : value) (args : dict) : M value :=
  response <- _exec_mcp self (exec_command server tool args) ;;
  check_success "Execution" response ;;;
  read_metadata response "executionTime" ;;;
  lift (py_get response "data" PyNone).

(** Line 132. *)
Definition tx_flag (transactional : bool) : string :=
  if transactional then "--transactional" else "".

Definition batch_command (server : value) (operations : list value)
    (transactional : bool) : string :=
  "tools batch " ++ py_str server ++ " " ++ tx_flag transactional
  ++ " --operations " ++ dq ++ escape_quotes (json_dumps (PyList operations)) ++ dq.

(** Lines 119-147. *)
Definition batch (self : MCPAgent) (server : value) (operations : list value)
    (transactional : bool) : M value :=
  response <- _exec_mcp self (batch_command server operations transactional) ;;
  check_success "Batch execution" response ;;;
  read_metadata response "executionTime" ;;;
  lift (py_get response "data" PyNone).

(** [m.group(n) if m else default]. *)
Definition group_or (m : option (list string)) (n : nat) (default : string) : result string :=
  match m with
  | Some groups => py_group groups n
  | None => Ok default
  end.

(** Lines 149-177. *)
Definition infer_arguments (self : MCPAgent) (tool_name schema : value)
    (task : string) : M dict :=
  let args : dict := [] in
  if py_eq tool_name (PyStr "browser_navigate")
  then let url_match := re_search url_re task in
       url <- lift (group_or url_match 0 "https://example.com") ;;
       ret (dict_set "url" (PyStr url) args)
  else if py_eq tool_name (PyStr "browser_screenshot")
  then let args := dict_set "filename" (PyStr "screenshot.png") args in
       let args := dict_set "fullPage" (PyBool true) args in
       ret args
  else if py_eq tool_name (PyStr "read_file")
  then let path_match := re_search path_re task in
       path <- lift (group_or path_match 1 "README.md") ;;
       ret (dict_set "path" (PyStr path) args)
  else ret args.

(** Line 211: [next((s for s in schemas if s["name"] == tool_name), None)]. *)
Fixpoint find_schema (schemas : list value) (tool_name : value) : result value :=
  match schemas with
  | [] => Ok PyNone
  | s :: rest =>
      match py_getitem s (Key "name") with
      | Ok name => if py_eq name tool_name then Ok s else find_schema rest tool_name
      | Raise e => Raise e
      end
  end.

(** Lines 209-213: the loop that builds [batch_ops]. *)
Fixpoint build_batch_ops (self : MCPAgent) (schemas : list value)
    (operations : list value) (task : string) : M (list value) :=
  match operations with
  | [] => ret []
  | tool_name :: rest =>
      schema <- lift (find_schema schemas tool_name) ;;
      args <- infer_arguments self tool_name schema task ;;
      ops <- build_batch_ops self schemas rest task ;;
      ret (PyDict [("tool", tool_name); ("args", PyDict args)] :: ops)
  end.

(** Lines 196-216: the branch taken when [suggested_batch] is true. *)
Definition batch_strategy (self : MCPAgent) (task : string)
    (suggested_batch : value) : M value :=
  server <- lift (py_getitem suggested_batch (Key "server")) ;;
  operations <- lift (py_getitem suggested_batch (Key "operations")) ;;
  lift (py_len operations) ;;;
  schemas <- load_schemas self server operations ;;
  tool_names <- lift (py_iter operations) ;;
  batch_ops <- build_batch_ops self schemas tool_names task ;;
  batch self server batch_ops false.

(** Lines 218-234: the other branch. *)
Definition single_strategy (self : MCPAgent) (task : string)
    (matches : value) : M value :=
  top_match <- lift (py_getitem matches (Index 0)) ;;
  lift (py_getitem top_match (Key "confidence")) ;;;
  server <- lift (py_getitem top_match (Key "server")) ;;
  tool <- lift (py_getitem top_match (Key "tool")) ;;
  schemas <- load_schemas self server (PyList [tool]) ;;
  tool <- lift (py_getitem top_match (Key "tool")) ;;
  schema <- lift (list_getitem schemas 0) ;;
  args <- infer_arguments self tool schema task ;;
  server <- lift (py_getitem top_match (Key "server")) ;;
  tool <- lift (py_getitem top_match (Key "tool")) ;;
  exec_tool self server tool args.

(** Lines 179-234. *)
Definition execute_task (self : MCPAgent) (task : string) : M value :=
  discovery <- discover self task ;;
  matches <- lift (py_get discovery "matches" (PyList [])) ;;
  if negb (py_truthy matches)
  then raise NoMatchError
  else
    suggested_batch <- lift (py_get discovery "suggested_batch" PyNone) ;;
    if py_truthy suggested_batch
    then batch_strategy self task suggested_batch
    else single_strategy self task matches.

(** A command of the trace that is a single-tool Execution request. *)
Definition is_exec_call (self : MCPAgent) (command : string) : bool :=
  prefix (full_command self "tools exec ") command.

(** The last request of a run: the Execution of one tool, or a Batch with
    the transactional flag off. *)
Definition is_final_call (self : MCPAgent) (command : string) : Prop :=
  (exists server tool args,
     command = full_command self (exec_command server tool args))
  \/ (exists server operations,
        command = full_command self (batch_command server operations false)).

(** The commands of a strategy and how it ended: nothing and a failure, a
    Schema request and a failure, or a Schema request and a last request. *)
Definition planned_calls (self : MCPAgent) (r : result value)
    (new : list string) : Prop :=
  ((exists e, r = Raise e) /\ new = [])
  \/ (exists server tool_list,
        new = [full_command self (schema_command server tool_list)]
        /\ exists e, r = Raise e)
  \/ (exists server tool_list final,
        new = [full_command self (schema_command server tool_list); final]
        /\ is_final_call self final).

(** ** [main] *)

(** How the process ends: the result printed and status 0, or the usage or
    the exception reported on the diagnostic stream and status 1. *)
Inductive outcome : Type :=
| Printed (result : value)
| Failed (e : exn)
| Usage.

Definition exit_status (o : outcome) : Z :=
  match o with
  | Printed _ => 0
  | Failed _ => 1
  | Usage => 1
  end.

(** Lines 237-258; [argv] is [sys.argv], the result also holds the commands
    the run handed to the external process. *)
Definition main (argv : list string) : outcome * list string :=
  match argv with
  | _ :: task :: _ =>
      match execute_task default_agent task [] with
      | (Ok result, tr) => (Printed result, tr)
      | (Raise e, tr) => (Failed e, tr)
      end
  | _ => (Usage, [])
  end.

End Agent.

(** ** The wire contract, as the spec words it *)

Section Wire.
Context {N : Numbers}.

(** A response that reports success, with its payload and metadata. *)
Definition success_envelope (data : value) (metadata : dict) : value :=
  PyDict [("success", PyBool true); ("data", data); ("metadata", PyDict metadata)].

(** [{success: false, error: {message: m}}]. *)
Definition failure_envelope (message : string) : value :=
  PyDict [("success", PyBool false); ("error", PyDict [("message", PyStr message)])].

(** A Schema or Execution response the envelope check lets through, and
    the payload the phase reads from it: [success] is true, [metadata] is a
    mapping when it is there, and [data] is the [data] field, [None] when
    there is none. *)
Definition successful (response data : value) : Prop :=
  (exists s, py_get response "success" PyNone = Ok s /\ py_truthy s = true)
  /\ (exists md, py_get response "metadata" (PyDict []) = Ok (PyDict md))
  /\ py_get response "data" PyNone = Ok data.

(** The number of schemas a Schema response's [data] field holds, in the
    words of the spec: the elements of a sequence, one for a single schema
    object, none otherwise. *)
Definition schemas_returned (data : value) : nat :=
  match data with
  | PyList l => List.length l
  | PyDict _ => 1
  | _ => 0
  end.

(** A schema a lookup by name can read. *)
Definition named_schema (s : value) : Prop :=
  exists d name, s = PyDict d /\ dict_lookup "name" d = Some name.

End Wire.

(** ** A scripted host

    One instance of the classes, on which the scenarios of the spec and the
    inputs that separate the code from a claim are run.  Numbers are decimal
    literals; the external process answers by a script. *)

Module Scripted.

(** [mantissa / 10 ^ places]: 0.9 is [dec 9 1], the int 1 is [dec 1 0]. *)
Record decimal : Type := dec { mantissa : Z; places : nat }.

Definition scale (d : decimal) : Z := 10 ^ Z.of_nat (places d).

Fixpoint zeros (n : nat) : string :=
  match n with
  | O => ""
  | S n' => "0" ++ zeros n'
  end.

Definition decimal_text (d : decimal) : string :=
  let a := Z.abs (mantissa d) in
  let whole := NilZero.string_of_int (Z.to_int (a / scale d)) in
  let frac := NilZero.string_of_int (Z.to_int (a mod scale d)) in
  (if mantissa d <? 0 then "-" else "")%Z
  ++ whole
  ++ match places d with
     | O => ""
     | S _ => "." ++ zeros (places d - String.length frac) ++ frac
     end.

#[export] Instance decimals : Numbers := {|
  number := decimal;
  num_truthy := fun d => negb (mantissa d =? 0)%Z;
  num_eqb := fun a b => (mantissa a * scale b =? mantissa b * scale a)%Z;
  num_of_bool := fun b => dec (if b then 1 else 0) 0;
  num_json := decimal_text
|}.

(** [repr] of decoded JSON whose strings hold no quote, backslash or
    control character. *)
Fixpoint repr (v : value) : string :=
  match v with
  | PyNone => "None"
  | PyBool true => "True"
  | PyBool false => "False"
  | PyNum n => decimal_text n
  | PyStr s => "'" ++ s ++ "'"
  | PyList l => "[" ++ String.concat ", " (map repr l) ++ "]"
  | PyDict d =>
      "{" ++ String.concat ", "
               ((fix items (d : list (string * value)) : list string :=
                   match d with
                   | [] => []
                   | (k, v) :: rest => ("'" ++ k ++ "': " ++ repr v) :: items rest
                   end) d)
          ++ "}"
  end.

(** One line of the script: the command line, the exit status of the
    process and the response it writes, as JSON, on its standard output. *)
Definition script : Type := list (string * (Z * value)).

Fixpoint answer (s : script) (command : string) : option (Z * value) :=
  match s with
  | [] => None
  | (c, a) :: rest => if command =? c then Some a else answer rest command
  end.

(** A command the script does not know writes nothing and exits with the
    shell's status 127. *)
Definition run (s : script) (history : list string) (command : string)
    : string + CompletedProcess :=
  match answer s command with
  | Some (status, response) =>
      inr {| returncode := status; stdout := json_dumps response; stderr := "" |}
  | None =>
      inr {| returncode := 127; stdout := ""; stderr := "command not found" |}
  end.

(** The decoder knows the texts the script writes and rejects any other. *)
Fixpoint loads (s : script) (text : string) : decoded :=
  match s with
  | [] => JSONDecodeError
  | (_, (_, response)) :: rest =>
      if json_dumps response =? text then Decoded response else loads rest text
  end.

Definition host (s : script) : Host := {|
  py_repr := repr;
  json_loads := loads s;
  subprocess_run := run s
|}.

Definition cli (command : string) : string :=
  full_command default_agent command.

(** A successful response with a token estimate. *)
Definition success (data : value) : value :=
  success_envelope data [("tokensEstimate", PyNum (dec 120 0))].

Definition fs_match : value :=
  PyDict [("server", PyStr "fs"); ("tool", PyStr "read_file");
          ("confidence", PyNum (dec 9 1))].

Definition notes_task : string := "read the file 'notes.txt'".

Definition read_file_schema : value :=
  PyDict [("name", PyStr "read_file"); ("parameters", PyDict [])].

Definition notes_args : dict := [("path", PyStr "notes.txt")].

(** The text of a command whose server and tool are strings does not depend
    on the host; the scripts build it on the host with no script. *)
Definition exec_text (server tool : string) (args : dict) : string :=
  cli (exec_command (W := host []) (PyStr server) (PyStr tool) args).

Definition batch_text (server : string) (operations : list value) : string :=
  cli (batch_command (W := host []) (PyStr server) operations false).

(** Scenario A of the spec, with a backend that cannot reach the server
    when the tool is executed: the process then exits with status 1. *)
Definition script_A : script :=
  [ (cli (discover_command notes_task),
     (0%Z, success (PyDict [("matches", PyList [fs_match])])));
    (cli "tools schema fs read_file", (0%Z, success read_file_schema));
    (exec_text "fs" "read_file" notes_args,
     (1%Z, failure_envelope "server unreachable")) ].

Definition browser_task : string :=
  "navigate to https://example.org and take a screenshot".

Definition browser_batch : value :=
  PyDict [("server", PyStr "browser");
          ("operations", PyList [PyStr "browser_navigate"; PyStr "browser_screenshot"])].

Definition browser_matches : value :=
  PyList [PyDict [("server", PyStr "browser"); ("tool", PyStr "browser_navigate");
                  ("confidence", PyNum (dec 95 2))];
          PyDict [("server", PyStr "browser"); ("tool", PyStr "browser_screenshot");
                  ("confidence", PyNum (dec 9 1))]].

Definition browser_schemas : value :=
  PyList [PyDict [("name", PyStr "browser_navigate"); ("parameters", PyDict [])];
          PyDict [("name", PyStr "browser_screenshot"); ("parameters", PyDict [])]].

Definition browser_schemas_list : list value :=
  [PyDict [("name", PyStr "browser_navigate"); ("parameters", PyDict [])];
   PyDict [("name", PyStr "browser_screenshot"); ("parameters", PyDict [])]].

Definition browser_ops : list value :=
  [PyDict [("tool", PyStr "browser_navigate");
           ("args", PyDict [("url", PyStr "https://example.org")])];
   PyDict [("tool", PyStr "browser_screenshot");
           ("args", PyDict [("filename", PyStr "screenshot.png");
                            ("fullPage", PyBool true)])]].

(** Scenario B of the spec. *)
Definition script_B : script :=
  [ (cli (discover_command browser_task),
     (0%Z, success (PyDict [("matches", browser_matches);
                            ("suggested_batch", browser_batch)])));
    (cli "tools schema browser browser_navigate browser_screenshot",
     (0%Z, success browser_schemas));
    (batch_text "browser" browser_ops, (0%Z, success (PyStr "done"))) ].

(** Discovery finds no tool, and still suggests a batch. *)
Definition script_no_match : script :=
  [ (cli (discover_command browser_task),
     (0%Z, success (PyDict [("matches", PyList []);
                            ("suggested_batch", browser_batch)]))) ].

(** The Schema response reports success and has no [data] field. *)
Definition script_no_data : script :=
  [ (cli "tools schema fs read_file", (0%Z, PyDict [("success", PyBool true)])) ].

(** Scenario A with a Schema response whose [data] is the empty sequence. *)
Definition script_empty_schemas : script :=
  [ (cli (discover_command notes_task),
     (0%Z, success (PyDict [("matches", PyList [fs_match])])));
    (cli "tools schema fs read_file", (0%Z, success (PyList [])));
    (exec_text "fs" "read_file" notes_args, (0%Z, success (PyStr "the notes"))) ].

(** Scenario A on a backend that executes the tool. *)
Definition script_read_ok : script :=
  [ (cli (discover_command notes_task),
     (0%Z, success (PyDict [("matches", PyList [fs_match])])));
    (cli "tools schema fs read_file", (0%Z, success read_file_schema));
    (exec_text "fs" "read_file" notes_args, (0%Z, success (PyStr "the notes"))) ].

(** The same, with an Execution response whose [metadata] is null. *)
Definition null_metadata_response : value :=
  PyDict [("success", PyBool true); ("data", PyStr "the notes"); ("metadata", PyNone)].

Definition script_null_metadata : script :=
  [ (cli (discover_command notes_task),
     (0%Z, success (PyDict [("matches", PyList [fs_match])])));
    (cli "tools schema fs read_file", (0%Z, success read_file_schema));
    (exec_text "fs" "read_file" notes_args, (0%Z, null_metadata_response)) ].

(** Scenario A on a backend that knows no Schema request. *)
Definition script_schema_down : script :=
  [ (cli (discover_command notes_task),
     (0%Z, success (PyDict [("matches", PyList [fs_match])]))) ].

(** Discovery is refused, with no error field. *)
Definition script_refused : script :=
  [ (cli (discover_command browser_task), (1%Z, PyDict [("success", PyBool false)])) ].

(** Discovery answers with a JSON array. *)
Definition script_array : script :=
  [ (cli (discover_command browser_task), (0%Z, PyList [])) ].

(** Discovery reports success and nothing else. *)
Definition script_bare_success : script :=
  [ (cli (discover_command browser_task), (0%Z, PyDict [("success", PyBool true)])) ].

(** Discovery suggests a batch with no server. *)
Definition serverless_batch : dict :=
  [("operations", PyList [PyStr "browser_navigate"; PyStr "browser_screenshot"])].

Definition script_batch_no_server : script :=
  [ (cli (discover_command browser_task),
     (0%Z, success (PyDict [("matches", browser_matches);
                            ("suggested_batch", PyDict serverless_batch)]))) ].

(** The only match has no confidence. *)
Definition unrated_match : dict :=
  [("server", PyStr "fs"); ("tool", PyStr "read_file")].

Definition script_no_confidence : script :=
  [ (cli (discover_command notes_task),
     (0%Z, success (PyDict [("matches", PyList [PyDict unrated_match])]))) ].

(** The only match names its tool by a number. *)
Definition numbered_match : value :=
  PyDict [("server", PyStr "fs"); ("tool", PyNum (dec 7 0));
          ("confidence", PyNum (dec 9 1))].

Definition script_numeric_tool : script :=
  [ (cli (discover_command notes_task),
     (0%Z, success (PyDict [("matches", PyList [numbered_match])]))) ].

(** Scenario B with a Schema response that has no [data] field. *)
Definition script_B_no_data : script :=
  [ (cli (discover_command browser_task),
     (0%Z, success (PyDict [("matches", browser_matches);
                            ("suggested_batch", browser_batch)])));
    (cli "tools schema browser browser_navigate browser_screenshot",
     (0%Z, PyDict [("success", PyBool true)])) ].

(** The backend answers every command with 2000 opening brackets, on which
    the decoder gives up with the recursion limit. *)
Fixpoint brackets (n : nat) : string :=
  match n with
  | O => ""
  | S n' => "[" ++ brackets n'
  end.

Definition deep_output : string := brackets 2000.

Definition recursion_limit : string :=
  "maximum recursion depth exceeded while decoding a JSON array from a unicode string".

Definition host_deep : Host := {|
  py_repr := repr;
  json_loads :=
    fun text => if text =? deep_output then OtherError recursion_limit
                else JSONDecodeError;
  subprocess_run :=
    fun _ _ => inr {| returncode := 0; stdout := deep_output; stderr := "" |}
|}.

(** The external process cannot be started. *)
Definition host_down : Host := {|
  py_repr := repr;
  json_loads := loads [];
  subprocess_run := fun _ _ => inl "[Errno 12] Cannot allocate memory"
|}.

Definition host_read_ok : Host := host script_read_ok.
Definition host_null_metadata : Host := host script_null_metadata.
Definition host_schema_down : Host := host script_schema_down.
Definition host_refused : Host := host script_refused.
Definition host_array : Host := host script_array.
Definition host_bare_success : Host := host script_bare_success.
Definition host_batch_no_server : Host := host script_batch_no_server.
Definition host_no_confidence : Host := host script_no_confidence.
Definition host_numeric_tool : Host := host script_numeric_tool.
Definition host_B_no_data : Host := host script_B_no_data.
Definition host_A : Host := host script_A.
Definition host_B : Host := host script_B.
Definition host_no_match : Host := host script_no_match.
Definition host_no_data : Host := host script_no_data.
Definition host_empty_schemas : Host := host script_empty_schemas.

End Scripted.

(** * Properties *)

Section Properties.
Context {N : Numbers} {W : Host}.

(** ** How the methods use the external process *)

Lemma quiet_ret {A : Type} (a : A) : quiet (ret a).
Proof. intro tr. reflexivity. Qed.

Lemma quiet_raise {A : Type} (e : exn) : quiet (@raise A e).
Proof. intro tr. reflexivity. Qed.

Lemma quiet_lift {A : Type} (r : result A) : quiet (lift r).
Proof. intro tr. reflexivity. Qed.

Lemma quiet_bind {A B : Type} (m : M A) (f : A -> M B) :
  quiet m -> (forall a, quiet (f a)) -> quiet (bind m f).
Proof.
  intros Hm Hf tr. unfold bind. specialize (Hm tr).
  destruct (m tr) as [[a | e] tr']; simpl in *; subst.
  - apply Hf.
  - reflexivity.
Qed.

Lemma quiet_if {A : Type} (b : bool) (m1 m2 : M A) :
  quiet m1 -> quiet m2 -> quiet (if b then m1 else m2).
Proof. destruct b; auto. Qed.

Lemma runs_once_bind {A B : Type} (m : M A) (f : A -> M B) (c : string) :
  runs_once m c -> (forall a, quiet (f a)) -> runs_once (bind m f) c.
Proof.
  intros Hm Hf tr. unfold bind. destruct (Hm tr) as [r Hr]. rewrite Hr.
  destruct r as [a | e].
  - exists (fst (f a (tr ++ [c])%list)).
    rewrite <- (Hf a (tr ++ [c])%list) at 3.
    destruct (f a (tr ++ [c])%list); reflexivity.
  - exists (Raise e). reflexivity.
Qed.

Lemma quiet_result {A : Type} (m : M A) (tr : list string) :
  quiet m -> m tr = (fst (m tr), tr).
Proof. intro Hq. rewrite <- (Hq tr) at 3. destruct (m tr); reflexivity. Qed.

Lemma bind_ok {A B : Type} (m : M A) (f : A -> M B) tr a tr' :
  m tr = (Ok a, tr') -> bind m f tr = f a tr'.
Proof. intro Hm. unfold bind. rewrite Hm. reflexivity. Qed.

Lemma bind_raise {A B : Type} (m : M A) (f : A -> M B) tr e tr' :
  m tr = (Raise e, tr') -> bind m f tr = (Raise e, tr').
Proof. intro Hm. unfold bind. rewrite Hm. reflexivity. Qed.

Lemma bind_lift_ok {A B : Type} (r : result A) (f : A -> M B) tr a :
  r = Ok a -> bind (lift r) f tr = f a tr.
Proof. intros ->. reflexivity. Qed.

Lemma bind_lift_raise {A B : Type} (r : result A) (f : A -> M B) tr e :
  r = Raise e -> bind (lift r) f tr = (Raise e, tr).
Proof. intros ->. reflexivity. Qed.

Create HintDb quiet.
#[local] Hint Resolve quiet_ret quiet_raise quiet_lift : quiet.
#[local] Hint Extern 2 (quiet (bind _ _)) => apply quiet_bind; [ | intro ] : quiet.
#[local] Hint Extern 2 (quiet (if _ then _ else _)) => apply quiet_if : quiet.

Lemma _exec_mcp_runs_once self command :
  runs_once (_exec_mcp self command) (full_command self command).
Proof.
  intro tr. unfold _exec_mcp.
  destruct (subprocess_run tr (full_command self command)) as [why | process].
  - eexists. reflexivity.
  - destruct (json_loads (stdout process)); eexists; reflexivity.
Qed.

Lemma check_success_quiet label response : quiet (check_success label response).
Proof. unfold check_success. auto 10 with quiet. Qed.

Lemma read_metadata_quiet response field : quiet (read_metadata response field).
Proof. unfold read_metadata. auto with quiet. Qed.

#[local] Hint Resolve check_success_quiet read_metadata_quiet : quiet.

Lemma discover_runs_once self task :
  runs_once (discover self task) (full_command self (discover_command task)).
Proof.
  unfold discover. apply runs_once_bind.
  - apply _exec_mcp_runs_once.
  - intro response. auto 20 with quiet.
Qed.

Lemma exec_tool_runs_once self server tool args :
  runs_once (exec_tool self server tool args)
            (full_command self (exec_command server tool args)).
Proof.
  unfold exec_tool. apply runs_once_bind.
  - apply _exec_mcp_runs_once.
  - intro response. auto 10 with quiet.
Qed.

Lemma batch_runs_once self server operations transactional :
  runs_once (batch self server operations transactional)
            (full_command self (batch_command server operations transactional)).
Proof.
  unfold batch. apply runs_once_bind.
  - apply _exec_mcp_runs_once.
  - intro response. auto 10 with quiet.
Qed.

Lemma group_or_total m n default :
  (forall groups, m = Some groups -> n < List.length groups) ->
  exists g, group_or m n default = Ok g.
Proof.
  intro Hlen. destruct m as [groups | ]; simpl.
  - unfold py_group. specialize (Hlen groups eq_refl).
    destruct (nth_error groups n) eqn:E.
    + eexists. reflexivity.
    + apply nth_error_None in E. lia.
  - eexists. reflexivity.
Qed.

(** ** The matcher always hands a match its groups *)

Lemma star_class_inv p s k m :
  star_class p s k = Some m -> exists rest, k rest = Some m.
Proof.
  induction s as [ | c s IH]; simpl; intro Hm.
  - eauto.
  - destruct (p c); [ | eauto].
    destruct (star_class p s k) eqn:E; [ | eauto].
    apply IH. congruence.
Qed.

Lemma match_re_inv r :
  forall s caps k m,
    match_re r s caps k = Some m ->
    exists rest caps',
      k rest caps' = Some m /\ List.length caps + min_groups r <= List.length caps'.
Proof.
  induction r as [c | p | r1 IH1 r2 IH2 | r1 IH1 | p | r1 IH1];
    intros s caps k m Hm; simpl in *.
  - destruct s as [ | c' rest]; [discriminate | ].
    destruct (Ascii.eqb c' c); [ | discriminate].
    exists rest, caps. split; [assumption | lia].
  - destruct s as [ | c' rest]; [discriminate | ].
    destruct (p c'); [ | discriminate].
    exists rest, caps. split; [assumption | lia].
  - apply IH1 in Hm. destruct Hm as (rest1 & caps1 & Hm & Hlen1).
    apply IH2 in Hm. destruct Hm as (rest2 & caps2 & Hm & Hlen2).
    exists rest2, caps2. split; [assumption | lia].
  - destruct (match_re r1 s caps k) eqn:E.
    + apply IH1 in E. destruct E as (rest & caps' & Hk & Hlen).
      exists rest, caps'. split; [congruence | lia].
    + exists s, caps. split; [assumption | lia].
  - destruct s as [ | c' rest]; [discriminate | ].
    destruct (p c'); [ | discriminate].
    apply star_class_inv in Hm. destruct Hm as (rest' & Hk).
    exists rest', caps. split; [assumption | lia].
  - apply IH1 in Hm. destruct Hm as (rest & caps' & Hk & Hlen).
    eexists rest, _. split; [exact Hk | ].
    rewrite length_app. simpl. lia.
Qed.

Lemma re_search_groups r s m :
  re_search r s = Some m -> min_groups r < List.length m.
Proof.
  induction s as [ | c s IH]; simpl; unfold match_at.
  - destruct (match_re r "" [] _) eqn:E; [ | discriminate].
    intro Hm. apply match_re_inv in E. destruct E as (rest & caps' & Hk & Hlen).
    assert (m = consumed "" rest :: caps') by congruence. subst. simpl in *. lia.
  - destruct (match_re r (String c s) [] _) eqn:E; [ | exact IH].
    intro Hm. apply match_re_inv in E. destruct E as (rest & caps' & Hk & Hlen).
    assert (m = consumed (String c s) rest :: caps') by congruence.
    subst. simpl in *. lia.
Qed.

Lemma infer_arguments_quiet self tool_name schema task :
  quiet (infer_arguments self tool_name schema task).
Proof.
  unfold infer_arguments.
  repeat (apply quiet_if); auto with quiet.
Qed.

(** ** Command Gateway *)


(** ** Argument Inference *)

(** C6. For every tool name and task text [infer_arguments] returns a
    mapping and runs no command; it never raises.  When the task holds no
    URL, "browser_navigate" gets the default URL; when it holds no quoted
    text, "read_file" gets the default path; "browser_screenshot" gets its
    two fixed arguments; any other tool gets the empty mapping.  The empty
    task matches neither pattern. *)
Theorem infer_arguments_never_raises :
  forall self tool_name schema task tr,
    exists args,
      infer_arguments self tool_name schema task tr = (Ok args, tr)
      /\ (tool_name = PyStr "browser_navigate" ->
          re_search url_re task = None ->
          args = [("url", PyStr "https://example.com")])
      /\ (tool_name = PyStr "browser_screenshot" ->
          args = [("filename", PyStr "screenshot.png"); ("fullPage", PyBool true)])
      /\ (tool_name = PyStr "read_file" ->
          re_search path_re task = None ->
          args = [("path", PyStr "README.md")])
      /\ (py_eq tool_name (PyStr "browser_navigate") = false ->
          py_eq tool_name (PyStr "browser_screenshot") = false ->
          py_eq tool_name (PyStr "read_file") = false ->
          args = [])
      /\ re_search url_re "" = None
      /\ re_search path_re "" = None.
Proof.
  intros self tool_name schema task tr.
  destruct (group_or_total (re_search url_re task) 0 "https://example.com")
    as [url Hurl].
  { intros groups Hm. apply re_search_groups in Hm. lia. }
  destruct (group_or_total (re_search path_re task) 1 "README.md")
    as [path Hpath].
  { intros groups Hm. apply re_search_groups in Hm. simpl in Hm. lia. }
  unfold infer_arguments.
  destruct (py_eq tool_name (PyStr "browser_navigate")) eqn:Enav.
  - exists [("url", PyStr url)]. split.
    + unfold bind, lift. rewrite Hurl. reflexivity.
    + repeat split; try reflexivity; try discriminate.
      * intros _ Hnone. rewrite Hnone in Hurl. simpl in Hurl. congruence.
      * intros ->. discriminate Enav.
      * intros ->. discriminate Enav.
  - destruct (py_eq tool_name (PyStr "browser_screenshot")) eqn:Eshot.
    + eexists. split; [reflexivity | ].
      repeat split; try reflexivity; try discriminate.
      * intros ->. discriminate Enav.
      * intros ->. discriminate Eshot.
    + destruct (py_eq tool_name (PyStr "read_file")) eqn:Eread.
      * exists [("path", PyStr path)]. split.
        -- unfold bind, lift. rewrite Hpath. reflexivity.
        -- repeat split; try reflexivity; try discriminate.
           ++ intros ->. discriminate Enav.
           ++ intros ->. discriminate Eshot.
           ++ intros _ Hnone. rewrite Hnone in Hpath. simpl in Hpath. congruence.
      * exists []. split; [reflexivity | ].
        repeat split; try reflexivity.
        -- intros ->. discriminate Enav.
        -- intros ->. discriminate Eshot.
        -- intros ->. discriminate Eread.
Qed.

(** C10. The schema handed to [infer_arguments] has no influence on what it
    returns: for every tool name, task text and history of the run, any two
    schema values (absent ones included) give the same outcome. *)
Theorem infer_arguments_ignores_schema :
  forall self tool_name (schema1 schema2 : value) task tr,
    infer_arguments self tool_name schema1 task tr
    = infer_arguments self tool_name schema2 task tr.
Proof.
  intros self tool_name schema1 schema2 task tr.
  unfold infer_arguments.
  destruct (py_eq tool_name (PyStr "browser_navigate")); [reflexivity | ].
  destruct (py_eq tool_name (PyStr "browser_screenshot")); [reflexivity | ].
  destruct (py_eq tool_name (PyStr "read_file")); reflexivity.
Qed.

(** ** Task Orchestrator *)

(** C2. When Discovery returns a result whose [matches] sequence is empty,
    the run ends with the no-match error ([RuntimeError] "No matching tools
    found for the task") and the Discovery command is the only command the
    run hands to the external process: no Schema or Execution call is made. *)
Theorem no_match_ends_the_run :
  forall self task tr discovery tr1,
    discover self task tr = (Ok discovery, tr1) ->
    py_get discovery "matches" (PyList []) = Ok (PyList []) ->
    execute_task self task tr
    = (Raise (RuntimeError "No matching tools found for the task"), tr1)
    /\ tr1 = (tr ++ [full_command self (discover_command task)])%list.
Proof.
  intros self task tr discovery tr1 Hdisc Hmatches. split.
  - unfold execute_task.
    rewrite (bind_ok _ _ _ _ _ Hdisc).
    rewrite (bind_lift_ok _ _ _ _ Hmatches).
    reflexivity.
  - destruct (discover_runs_once self task tr) as [r Hr].
    rewrite Hr in Hdisc. congruence.
Qed.

(** ** The calls of each strategy *)

Lemma infer_arguments_returns self tool_name schema task tr :
  exists args, infer_arguments self tool_name schema task tr = (Ok args, tr).
Proof.
  destruct (group_or_total (re_search url_re task) 0 "https://example.com")
    as [url Hurl].
  { intros groups Hm. apply re_search_groups in Hm. lia. }
  destruct (group_or_total (re_search path_re task) 1 "README.md")
    as [path Hpath].
  { intros groups Hm. apply re_search_groups in Hm. simpl in Hm. lia. }
  unfold infer_arguments, bind, lift.
  destruct (py_eq tool_name (PyStr "browser_navigate")).
  { rewrite Hurl. eexists. reflexivity. }
  destruct (py_eq tool_name (PyStr "browser_screenshot")).
  { eexists. reflexivity. }
  destruct (py_eq tool_name (PyStr "read_file")).
  { rewrite Hpath. eexists. reflexivity. }
  eexists. reflexivity.
Qed.

Lemma build_batch_ops_quiet self schemas operations task :
  quiet (build_batch_ops self schemas operations task).
Proof.
  induction operations as [ | tool_name rest IH]; simpl.
  - auto with quiet.
  - apply quiet_bind; [auto with quiet | intro schema].
    apply quiet_bind; [apply infer_arguments_quiet | intro args].
    apply quiet_bind; [exact IH | intro ops]. auto with quiet.
Qed.

Lemma py_join_len sep x joined :
  py_join sep x = Ok joined -> exists n, py_len x = Ok n.
Proof.
  destruct x; simpl; try discriminate; eauto.
Qed.

Lemma py_join_iter sep x joined :
  py_join sep x = Ok joined -> exists items, py_iter x = Ok items.
Proof.
  unfold py_join. destruct (py_iter x); [eauto | discriminate].
Qed.

Lemma load_schemas_runs_once self server tools tool_list :
  py_join " " tools = Ok tool_list ->
  runs_once (load_schemas self server tools)
            (full_command self (schema_command server tool_list)).
Proof.
  intros Hjoin tr. destruct (py_join_len _ _ _ Hjoin) as [n Hlen].
  unfold load_schemas.
  rewrite (bind_lift_ok _ _ _ _ Hlen), (bind_lift_ok _ _ _ _ Hjoin).
  apply runs_once_bind.
  - apply _exec_mcp_runs_once.
  - intro response. auto 10 with quiet.
Qed.


(** The response check of a phase on a response that reports success. *)
Lemma check_success_passes label response data tr :
  successful response data -> check_success label response tr = (Ok tt, tr).
Proof.
  intros [[s [Hs Htrue]] _]. unfold check_success.
  rewrite (bind_lift_ok _ _ _ _ Hs), Htrue. reflexivity.
Qed.

Lemma read_metadata_passes response data field tr :
  successful response data -> exists v, read_metadata response field tr = (Ok v, tr).
Proof.
  intros (_ & [md Hmd] & _). unfold read_metadata.
  rewrite (bind_lift_ok _ _ _ _ Hmd). unfold lift. simpl.
  destruct (dict_lookup field md); eauto.
Qed.

Lemma success_envelope_successful data metadata :
  successful (success_envelope data metadata) data.
Proof.
  repeat split.
  - exists (PyBool true). split; reflexivity.
  - exists metadata. reflexivity.
Qed.

(** The single-tool branch on a well-formed top match: a Schema request for
    its tool, then, unless the Schema phase or the indexing of its result
    failed, one Execution request for the same tool. *)
Lemma single_strategy_calls self task m others c server t tr :
  py_getitem m (Key "confidence") = Ok c ->
  py_getitem m (Key "server") = Ok server ->
  py_getitem m (Key "tool") = Ok (PyStr t) ->
  exists r rest,
    single_strategy self task (PyList (m :: others)) tr
    = (r, (tr ++ full_command self (schema_command server t) :: rest)%list)
    /\ ((rest = [] /\ exists e, r = Raise e)
        \/ exists args,
             rest = [full_command self (exec_command server (PyStr t) args)]).
Proof.
  intros Hc Hserver Htool. unfold single_strategy.
  rewrite (bind_lift_ok (py_getitem (PyList (m :: others)) (Index 0)) _ _ m eq_refl).
  rewrite (bind_lift_ok _ _ _ _ Hc), (bind_lift_ok _ _ _ _ Hserver),
    (bind_lift_ok _ _ _ _ Htool).
  destruct (load_schemas_runs_once self server (PyList [PyStr t]) t eq_refl tr)
    as [r1 Hr1].
  set (tr1 := (tr ++ [full_command self (schema_command server t)])%list) in *.
  destruct r1 as [schemas | e].
  2:{ rewrite (bind_raise _ _ _ _ _ Hr1). exists (Raise e), []. split; eauto. }
  rewrite (bind_ok _ _ _ _ _ Hr1), (bind_lift_ok _ _ _ _ Htool).
  destruct (list_getitem schemas 0) as [s0 | e] eqn:Hs0.
  2:{ rewrite (bind_lift_raise (Raise e) _ _ e eq_refl).
      exists (Raise e), []. split; eauto. }
  rewrite (bind_lift_ok (Ok s0) _ _ s0 eq_refl).
  destruct (infer_arguments_returns self (PyStr t) s0 task tr1) as [args Hargs].
  rewrite (bind_ok _ _ _ _ _ Hargs), (bind_lift_ok _ _ _ _ Hserver),
    (bind_lift_ok _ _ _ _ Htool).
  destruct (exec_tool_runs_once self server (PyStr t) args tr1) as [r Hr].
  rewrite Hr. exists r, [full_command self (exec_command server (PyStr t) args)].
  split; [ | right; eauto].
  unfold tr1. rewrite <- app_assoc. reflexivity.
Qed.

(** The batch branch on a well-formed suggestion: a Schema request for all
    its operations, then, unless the Schema phase or a schema lookup failed,
    one Batch request with the transactional flag off. *)
Lemma batch_strategy_calls self task suggested server operations tool_list tr :
  py_getitem suggested (Key "server") = Ok server ->
  py_getitem suggested (Key "operations") = Ok operations ->
  py_join " " operations = Ok tool_list ->
  exists r rest,
    batch_strategy self task suggested tr
    = (r, (tr ++ full_command self (schema_command server tool_list) :: rest)%list)
    /\ ((rest = [] /\ exists e, r = Raise e)
        \/ exists ops,
             rest = [full_command self (batch_command server ops false)]).
Proof.
  intros Hserver Hops Hjoin. unfold batch_strategy.
  destruct (py_join_len _ _ _ Hjoin) as [n Hlen].
  destruct (py_join_iter _ _ _ Hjoin) as [names Hnames].
  rewrite (bind_lift_ok _ _ _ _ Hserver), (bind_lift_ok _ _ _ _ Hops),
    (bind_lift_ok _ _ _ _ Hlen).
  destruct (load_schemas_runs_once self server operations tool_list Hjoin tr)
    as [r1 Hr1].
  set (tr1 := (tr ++ [full_command self (schema_command server tool_list)])%list) in *.
  destruct r1 as [schemas | e].
  2:{ rewrite (bind_raise _ _ _ _ _ Hr1). exists (Raise e), []. split; eauto. }
  rewrite (bind_ok _ _ _ _ _ Hr1), (bind_lift_ok _ _ _ _ Hnames).
  pose proof (quiet_result _ tr1 (build_batch_ops_quiet self schemas names task))
    as Hbuild.
  destruct (fst (build_batch_ops self schemas names task tr1)) as [ops | e].
  2:{ rewrite (bind_raise _ _ _ _ _ Hbuild). exists (Raise e), []. split; eauto. }
  rewrite (bind_ok _ _ _ _ _ Hbuild).
  destruct (batch_runs_once self server ops false tr1) as [r Hr].
  rewrite Hr. exists r, [full_command self (batch_command server ops false)].
  split; [ | right; eauto].
  unfold tr1. rewrite <- app_assoc. reflexivity.
Qed.

(** The branch [execute_task] takes once Discovery has returned. *)
Lemma execute_task_branch self task tr discovery tr1 matches suggested :
  discover self task tr = (Ok discovery, tr1) ->
  py_get discovery "matches" (PyList []) = Ok matches ->
  py_truthy matches = true ->
  py_get discovery "suggested_batch" PyNone = Ok suggested ->
  execute_task self task tr
  = if py_truthy suggested
    then batch_strategy self task suggested tr1
    else single_strategy self task matches tr1.
Proof.
  intros Hdisc Hmatches Htrue Hsuggested. unfold execute_task.
  rewrite (bind_ok _ _ _ _ _ Hdisc), (bind_lift_ok _ _ _ _ Hmatches), Htrue.
  simpl. rewrite (bind_lift_ok _ _ _ _ Hsuggested).
  destruct (py_truthy suggested); reflexivity.
Qed.

Lemma prefix_app (a b c : string) : prefix (a ++ b) (a ++ c) = prefix b c.
Proof.
  induction a as [ | x a IH]; simpl; [reflexivity | ].
  destruct (ascii_dec x x) as [_ | Hneq]; [exact IH | congruence].
Qed.

Lemma is_exec_call_full self command :
  is_exec_call self (full_command self command) = prefix "tools exec " command.
Proof.
  unfold is_exec_call, full_command.
  rewrite (prefix_app (mcp_command self)). apply (prefix_app " ").
Qed.


(** C1, as amended.  Once Discovery has returned a result whose [matches]
    is not empty: if the result holds a suggested batch (a true value, as
    every non-empty object is), [execute_task] takes the batch branch, and
    on a suggestion with a server and a sequence of tool names its next
    command is the Schema request for those operations, followed, unless
    the Schema phase or a schema lookup failed, by one Batch request; if
    the result holds no suggested batch, it takes the single-tool branch on
    [matches], and when [matches] is a sequence whose first element names
    a server, a tool and a confidence, its next command is the Schema
    request for that first element's tool, followed, unless the Schema
    phase or the indexing of its result failed, by one Execution request
    for that tool, whatever the other elements are. *)
Theorem strategy_selection :
  forall self task tr discovery tr1 matches suggested,
    discover self task tr = (Ok discovery, tr1) ->
    py_get discovery "matches" (PyList []) = Ok matches ->
    py_truthy matches = true ->
    py_get discovery "suggested_batch" PyNone = Ok suggested ->
    (py_truthy suggested = true ->
       execute_task self task tr = batch_strategy self task suggested tr1
       /\ forall server operations tool_list,
            py_getitem suggested (Key "server") = Ok server ->
            py_getitem suggested (Key "operations") = Ok operations ->
            py_join " " operations = Ok tool_list ->
            exists r rest,
              execute_task self task tr
              = (r, (tr1 ++ full_command self (schema_command server tool_list)
                         :: rest)%list)
              /\ ((rest = [] /\ exists e, r = Raise e)
                  \/ exists ops,
                       rest = [full_command self (batch_command server ops false)]))
    /\ (py_truthy suggested = false ->
       execute_task self task tr = single_strategy self task matches tr1
       /\ forall m others c server t,
            matches = PyList (m :: others) ->
            py_getitem m (Key "confidence") = Ok c ->
            py_getitem m (Key "server") = Ok server ->
            py_getitem m (Key "tool") = Ok (PyStr t) ->
            exists r rest,
              execute_task self task tr
              = (r, (tr1 ++ full_command self (schema_command server t) :: rest)%list)
              /\ ((rest = [] /\ exists e, r = Raise e)
                  \/ exists args,
                       rest = [full_command self (exec_command server (PyStr t) args)])).
Proof.
  intros self task tr discovery tr1 matches suggested Hdisc Hmatches Htrue Hsuggested.
  pose proof (execute_task_branch self task tr discovery tr1 matches suggested
                Hdisc Hmatches Htrue Hsuggested) as Hbranch.
  split; intro Hflag; rewrite Hflag in Hbranch; (split; [exact Hbranch | ]).
  - intros server operations tool_list Hserver Hops Hjoin. rewrite Hbranch.
    apply batch_strategy_calls with (operations := operations); assumption.
  - intros m others c server t -> Hc Hserver Htool. rewrite Hbranch.
    apply single_strategy_calls with (c := c); assumption.
Qed.

(** ** Schema Phase *)

(** X23.  On every Schema response that reports success, [load_schemas]
    returns the [data] field itself when it is a sequence, and otherwise the
    one-element sequence that holds it (line 92).  So a sequence-shaped
    field gives as many schemas as it has elements (none for the empty
    sequence) and a single schema object gives one; whatever is no sequence
    is wrapped as it is, [None] included. *)
Theorem load_schemas_normalizes :
  forall self server tools tool_list tr response data tr',
    py_join " " tools = Ok tool_list ->
    _exec_mcp self (schema_command server tool_list) tr = (Ok response, tr') ->
    successful response data ->
    load_schemas self server tools tr = (Ok (normalize_schemas data), tr')
    /\ (forall l, data = PyList l ->
          normalize_schemas data = l
          /\ List.length (normalize_schemas data) = schemas_returned data)
    /\ (forall d, data = PyDict d ->
          normalize_schemas data = [data]
          /\ List.length (normalize_schemas data) = schemas_returned data)
    /\ (is_list data = false -> normalize_schemas data = [data])
    /\ (data = PyNone -> normalize_schemas data = [PyNone]).
Proof.
  intros self server tools tool_list tr response data tr' Hjoin Hexec Hsucc.
  split.
  - destruct (py_join_len _ _ _ Hjoin) as [n Hlen].
    unfold load_schemas.
    rewrite (bind_lift_ok _ _ _ _ Hlen), (bind_lift_ok _ _ _ _ Hjoin),
      (bind_ok _ _ _ _ _ Hexec).
    rewrite (bind_ok _ _ _ _ _ (check_success_passes _ _ _ tr' Hsucc)).
    destruct Hsucc as (Hs & Hmd & Hdata).
    rewrite (bind_lift_ok _ _ _ _ Hdata).
    destruct (read_metadata_passes response data "tokensEstimate" tr'
                (conj Hs (conj Hmd Hdata))) as [v Hv].
    rewrite (bind_ok _ _ _ _ _ Hv). reflexivity.
  - repeat split; intros; subst; try reflexivity.
    destruct data; simpl in *; try reflexivity; discriminate.
Qed.

(** ** Execution Phase *)


(** C4.  A run of [main] that reaches the Execution call of the single-tool
    branch and gets the response [{success: false, error: {message: m}}]
    ends with the Execution phase error: the [RuntimeError] whose text is
    the phase label "Execution failed: " followed by [m] unchanged.  The
    process reports it and exits with status 1. *)
Theorem execution_failure_exits_nonzero :
  forall argv0 task rest discovery tr1 m others suggested c server tool
         s0 ss tr2 args message tr3,
    discover default_agent task [] = (Ok discovery, tr1) ->
    py_get discovery "matches" (PyList []) = Ok (PyList (m :: others)) ->
    py_get discovery "suggested_batch" PyNone = Ok suggested ->
    py_truthy suggested = false ->
    py_getitem m (Key "confidence") = Ok c ->
    py_getitem m (Key "server") = Ok server ->
    py_getitem m (Key "tool") = Ok tool ->
    load_schemas default_agent server (PyList [tool]) tr1 = (Ok (s0 :: ss), tr2) ->
    infer_arguments default_agent tool s0 task tr2 = (Ok args, tr2) ->
    _exec_mcp default_agent (exec_command server tool args) tr2
    = (Ok (failure_envelope message), tr3) ->
    main (argv0 :: task :: rest)
    = (Failed (RuntimeError ("Execution failed: " ++ message)), tr3)
    /\ phase_error "Execution" message = RuntimeError ("Execution failed: " ++ message)
    /\ exit_status (fst (main (argv0 :: task :: rest))) = 1%Z.
Proof.
  intros argv0 task rest discovery tr1 m others suggested c server tool
         s0 ss tr2 args message tr3
         Hdisc Hmatches Hsuggested Hfalse Hc Hserver Htool Hload Hargs Hexec.
  assert (Hrun : execute_task default_agent task []
                 = (Raise (RuntimeError ("Execution failed: " ++ message)), tr3)).
  { rewrite (execute_task_branch default_agent task [] discovery tr1
               (PyList (m :: others)) suggested Hdisc Hmatches eq_refl Hsuggested).
    rewrite Hfalse. unfold single_strategy.
    rewrite (bind_lift_ok (py_getitem (PyList (m :: others)) (Index 0)) _ _ m eq_refl).
    rewrite (bind_lift_ok _ _ _ _ Hc), (bind_lift_ok _ _ _ _ Hserver),
      (bind_lift_ok _ _ _ _ Htool), (bind_ok _ _ _ _ _ Hload),
      (bind_lift_ok _ _ _ _ Htool).
    rewrite (bind_lift_ok (list_getitem (s0 :: ss) 0) _ _ s0 eq_refl).
    rewrite (bind_ok _ _ _ _ _ Hargs), (bind_lift_ok _ _ _ _ Hserver),
      (bind_lift_ok _ _ _ _ Htool).
    unfold exec_tool. rewrite (bind_ok _ _ _ _ _ Hexec). reflexivity. }
  unfold main. rewrite Hrun. repeat split.
Qed.

(** C9.  Scenario A.  For the task "read the file 'notes.txt'", when
    Discovery returns exactly one match [{server: "fs", tool: "read_file",
    confidence: c}] and no suggested batch, and the Schema phase loads one
    schema: Argument Inference returns [{path: "notes.txt"}], and the
    commands of the run are the Discovery request, the Schema request for
    "read_file" on "fs" and the Execution request of "read_file" on "fs"
    with these arguments, which is the one Execution request of the run. *)
Theorem scenario_read_notes :
  forall self c schema tr1 tr2,
    let task := "read the file 'notes.txt'" in
    let top :=
      PyDict [("server", PyStr "fs"); ("tool", PyStr "read_file"); ("confidence", c)] in
    let calls :=
      [full_command self (discover_command task);
       full_command self "tools schema fs read_file";
       full_command self
         (exec_command (PyStr "fs") (PyStr "read_file") [("path", PyStr "notes.txt")])] in
    discover self task [] = (Ok (PyDict [("matches", PyList [top])]), tr1) ->
    load_schemas self (PyStr "fs") (PyList [PyStr "read_file"]) tr1
    = (Ok [schema], tr2) ->
    infer_arguments self (PyStr "read_file") schema task tr2
    = (Ok [("path", PyStr "notes.txt")], tr2)
    /\ (exists r, execute_task self task [] = (r, calls))
    /\ execute_task self task []
       = exec_tool self (PyStr "fs") (PyStr "read_file")
           [("path", PyStr "notes.txt")] tr2
    /\ List.length (filter (is_exec_call self) calls) = 1.
Proof.
  intros self c schema tr1 tr2 task top calls Hdisc Hload.
  assert (Hargs : infer_arguments self (PyStr "read_file") schema task tr2
                  = (Ok [("path", PyStr "notes.txt")], tr2)) by reflexivity.
  assert (Hrun : execute_task self task []
                 = exec_tool self (PyStr "fs") (PyStr "read_file")
                     [("path", PyStr "notes.txt")] tr2).
  { rewrite (execute_task_branch self task [] _ tr1 (PyList [top]) PyNone
               Hdisc eq_refl eq_refl eq_refl).
    simpl. unfold single_strategy.
    rewrite (bind_lift_ok (py_getitem (PyList [top]) (Index 0)) _ _ top eq_refl).
    rewrite (bind_lift_ok (py_getitem top (Key "confidence")) _ _ c eq_refl).
    rewrite (bind_lift_ok (py_getitem top (Key "server")) _ _ (PyStr "fs") eq_refl).
    rewrite (bind_lift_ok (py_getitem top (Key "tool")) _ _ (PyStr "read_file") eq_refl).
    rewrite (bind_ok _ _ _ _ _ Hload).
    rewrite (bind_lift_ok (py_getitem top (Key "tool")) _ _ (PyStr "read_file") eq_refl).
    rewrite (bind_lift_ok (list_getitem [schema] 0) _ _ schema eq_refl).
    rewrite (bind_ok _ _ _ _ _ Hargs).
    rewrite (bind_lift_ok (py_getitem top (Key "server")) _ _ (PyStr "fs") eq_refl).
    rewrite (bind_lift_ok (py_getitem top (Key "tool")) _ _ (PyStr "read_file") eq_refl).
    reflexivity. }
  split; [exact Hargs | ]. split; [ | split; [exact Hrun | ]].
  - rewrite Hrun.
    destruct (discover_runs_once self task []) as [r1 Hr1].
    rewrite Hr1 in Hdisc. injection Hdisc as _ Htr1.
    destruct (load_schemas_runs_once self (PyStr "fs") (PyList [PyStr "read_file"])
                "read_file" eq_refl tr1) as [r2 Hr2].
    rewrite Hr2 in Hload. injection Hload as _ Htr2.
    destruct (exec_tool_runs_once self (PyStr "fs") (PyStr "read_file")
                [("path", PyStr "notes.txt")] tr2) as [r Hr].
    exists r. rewrite Hr. subst tr2 tr1. reflexivity.
  - unfold calls. simpl filter.
    rewrite !is_exec_call_full. reflexivity.
Qed.

End Properties.

(** * The scenarios on the scripted host *)

Import Scripted.

Section ScenarioA.
#[local] Existing Instance host_A.


(** The Schema response of scenario A holds a single schema object. *)
Lemma load_schemas_normalizes_witness :
  load_schemas default_agent (PyStr "fs") (PyList [PyStr "read_file"]) []
  = (Ok [read_file_schema], [cli "tools schema fs read_file"])
  /\ List.length (normalize_schemas read_file_schema)
     = schemas_returned read_file_schema.
Proof.
  pose proof (load_schemas_normalizes default_agent (PyStr "fs")
                (PyList [PyStr "read_file"]) "read_file" []
                (success read_file_schema) read_file_schema
                [cli "tools schema fs read_file"]
                eq_refl eq_refl (success_envelope_successful _ _))
    as (Hload & _ & Hobject & _).
  split.
  - exact Hload.
  - exact (proj2 (Hobject _ eq_refl)).
Defined.

(** Scenario A on the backend that reports 'server unreachable' when the
    tool is executed. *)
Lemma execution_failure_exits_nonzero_witness :
  main ["python-agent.py"; notes_task]
  = (Failed (RuntimeError "Execution failed: server unreachable"),
     [cli (discover_command notes_task);
      cli "tools schema fs read_file";
      exec_text "fs" "read_file" notes_args])
  /\ exit_status (fst (main ["python-agent.py"; notes_task])) = 1%Z.
Proof.
  pose proof (execution_failure_exits_nonzero "python-agent.py" notes_task []
                (PyDict [("matches", PyList [fs_match])])
                [cli (discover_command notes_task)]
                fs_match [] PyNone (PyNum (dec 9 1)) (PyStr "fs") (PyStr "read_file")
                read_file_schema []
                [cli (discover_command notes_task); cli "tools schema fs read_file"]
                notes_args "server unreachable"
                [cli (discover_command notes_task);
                 cli "tools schema fs read_file";
                 exec_text "fs" "read_file" notes_args]
                eq_refl eq_refl eq_refl eq_refl eq_refl eq_refl eq_refl
                eq_refl eq_refl eq_refl)
    as (Hmain & _ & Hexit).
  split; [exact Hmain | exact Hexit].
Defined.

(** Scenario A, with the confidence 0.9. *)
Lemma scenario_read_notes_witness :
  infer_arguments default_agent (PyStr "read_file") read_file_schema notes_task
    [cli (discover_command notes_task); cli "tools schema fs read_file"]
  = (Ok notes_args,
     [cli (discover_command notes_task); cli "tools schema fs read_file"])
  /\ exists r,
       execute_task default_agent notes_task []
       = (r, [cli (discover_command notes_task);
              cli "tools schema fs read_file";
              exec_text "fs" "read_file" notes_args]).
Proof.
  pose proof (scenario_read_notes default_agent (PyNum (dec 9 1)) read_file_schema
                [cli (discover_command notes_task)]
                [cli (discover_command notes_task); cli "tools schema fs read_file"]
                eq_refl eq_refl)
    as (Hargs & Hcalls & _).
  split; [exact Hargs | exact Hcalls].
Defined.

End ScenarioA.

Section ScenarioB.
#[local] Existing Instance host_B.

(** Scenario B takes the batch branch, scenario A the single-tool branch. *)
Lemma strategy_selection_witness :
  (exists r rest,
     execute_task default_agent browser_task []
     = (r, ([cli (discover_command browser_task)]
            ++ cli "tools schema browser browser_navigate browser_screenshot"
            :: rest)%list)
     /\ ((rest = [] /\ exists e, r = Raise e)
         \/ exists ops,
              rest = [full_command default_agent
                        (batch_command (PyStr "browser") ops false)]))
  /\ (exists r rest,
        execute_task (W := host_A) default_agent notes_task []
        = (r, ([cli (discover_command notes_task)]
               ++ cli "tools schema fs read_file" :: rest)%list)
        /\ ((rest = [] /\ exists e, r = Raise e)
            \/ exists args,
                 rest = [full_command default_agent
                           (exec_command (W := host_A) (PyStr "fs")
                              (PyStr "read_file") args)])).
Proof.
  split.
  - exact (proj2
             (proj1 (strategy_selection default_agent browser_task []
                       (PyDict [("matches", browser_matches);
                                ("suggested_batch", browser_batch)])
                       [cli (discover_command browser_task)]
                       browser_matches browser_batch
                       eq_refl eq_refl eq_refl eq_refl)
                    eq_refl)
             (PyStr "browser")
             (PyList [PyStr "browser_navigate"; PyStr "browser_screenshot"])
             "browser_navigate browser_screenshot"
             eq_refl eq_refl eq_refl).
  - exact (proj2
             (proj2 (strategy_selection (W := host_A) default_agent notes_task []
                       (PyDict [("matches", PyList [fs_match])])
                       [cli (discover_command notes_task)]
                       (PyList [fs_match]) PyNone
                       eq_refl eq_refl eq_refl eq_refl)
                    eq_refl)
             fs_match [] (PyNum (dec 9 1)) (PyStr "fs") "read_file"
             eq_refl eq_refl eq_refl eq_refl).
Defined.

End ScenarioB.

Section NoMatch.
#[local] Existing Instance host_no_match.

(** Discovery returns no match: the Discovery command is the only one. *)
Lemma no_match_ends_the_run_witness :
  execute_task default_agent browser_task []
  = (Raise (RuntimeError "No matching tools found for the task"),
     [cli (discover_command browser_task)]).
Proof.
  exact (proj1 (no_match_ends_the_run default_agent browser_task []
                  (PyDict [("matches", PyList []);
                           ("suggested_batch", browser_batch)])
                  [cli (discover_command browser_task)]
                  eq_refl eq_refl)).
Defined.

(** C1, as stated, fails on a Discovery result that holds a suggested batch
    and an empty [matches] sequence: the run ends with the no-match error
    after the Discovery command; no schema is loaded and no batch is
    executed. *)
Lemma suggested_batch_without_matches :
  discover default_agent browser_task []
  = (Ok (PyDict [("matches", PyList []); ("suggested_batch", browser_batch)]),
     [cli (discover_command browser_task)])
  /\ py_truthy browser_batch = true
  /\ main ["python-agent.py"; browser_task]
     = (Failed (RuntimeError "No matching tools found for the task"),
        [cli (discover_command browser_task)]).
Proof. repeat split. Qed.

End NoMatch.

Section NoData.
#[local] Existing Instance host_no_data.

(** C3.  The code at the failing input: a Schema response that reports
    success and has no [data] field carries no schema, and [load_schemas]
    returns a sequence of length 1, which holds [None], where the claim
    gives length 0.  [None] is no schema: the declared result is a list of
    mappings (line 75), and the lookup of the batch branch raises on it
    (line 211). *)
Lemma load_schemas_without_data :
  _exec_mcp default_agent "tools schema fs read_file" []
  = (Ok (PyDict [("success", PyBool true)]), [cli "tools schema fs read_file"])
  /\ load_schemas default_agent (PyStr "fs") (PyList [PyStr "read_file"]) []
     = (Ok [PyNone], [cli "tools schema fs read_file"])
  /\ List.length [@PyNone decimals] = 1
  /\ schemas_returned (@PyNone decimals) = 0.
Proof. repeat split. Qed.

End NoData.

Section EmptySchemas.
#[local] Existing Instance host_empty_schemas.

(** C5.  Scenario A with a Schema response whose [data] is the empty
    sequence: the Schema phase succeeds with no schema, and the single-tool
    branch then raises [IndexError] at [schemas[0]], before Argument
    Inference; the tool is never executed and the process exits with
    status 1. *)
Theorem empty_schema_result_stops_single_path :
  load_schemas default_agent (PyStr "fs") (PyList [PyStr "read_file"])
    [cli (discover_command notes_task)]
  = (Ok [], [cli (discover_command notes_task); cli "tools schema fs read_file"])
  /\ main ["python-agent.py"; notes_task]
     = (Failed IndexError,
        [cli (discover_command notes_task); cli "tools schema fs read_file"])
  /\ exit_status (fst (main ["python-agent.py"; notes_task])) = 1%Z.
Proof. repeat split. Qed.

End EmptySchemas.

(** * Further properties of the agent *)

(** ** What the matcher finds *)

Lemma length_append (a b : string) :
  String.length (a ++ b) = String.length a + String.length b.
Proof. induction a as [ | c a IH]; simpl; [reflexivity | rewrite IH; reflexivity]. Qed.

Lemma substring_prefix (a b : string) :
  substring 0 (String.length a) (a ++ b) = a.
Proof.
  induction a as [ | c a IH]; simpl.
  - destruct b; reflexivity.
  - rewrite IH. reflexivity.
Qed.

Lemma consumed_append (a rest : string) : consumed (a ++ rest) rest = a.
Proof.
  unfold consumed. rewrite length_append.
  replace (String.length a + String.length rest - String.length rest)
    with (String.length a) by lia.
  apply substring_prefix.
Qed.

Lemma append_assoc (a b c : string) : ((a ++ b) ++ c = a ++ (b ++ c))%string.
Proof. induction a as [ | x a IH]; simpl; [reflexivity | rewrite IH; reflexivity]. Qed.

Lemma append_empty (a : string) : (a ++ "")%string = a.
Proof. induction a as [ | x a IH]; simpl; [reflexivity | rewrite IH; reflexivity]. Qed.

(** The greedy run of [star_class] is made of characters of the class. *)
Lemma star_class_run p s k m :
  star_class p s k = Some m ->
  exists run rest,
    s = (run ++ rest)%string
    /\ forallb p (list_ascii_of_string run) = true
    /\ k rest = Some m.
Proof.
  induction s as [ | c s IH]; simpl; intro Hm.
  - exists "", "". auto.
  - destruct (p c) eqn:Hc.
    + destruct (star_class p s k) eqn:E.
      * destruct (IH Hm) as (run & rest & -> & Hrun & Hk).
        exists (String c run), rest. simpl. rewrite Hc, Hrun.
        repeat split. assumption.
      * exists "", (String c s). auto.
    + exists "", (String c s). auto.
Qed.

(** Whatever [match_re] accepts is a match of the pattern: the text splits
    into what the pattern matched and the rest the continuation got. *)
Lemma match_re_sound r :
  forall s caps k m,
    match_re r s caps k = Some m ->
    exists a rest g,
      s = (a ++ rest)%string /\ matched r a g /\ k rest (caps ++ g)%list = Some m.
Proof.
  induction r as [c | p | r1 IH1 r2 IH2 | r1 IH1 | p | r1 IH1];
    intros s caps k m Hm; simpl in *.
  - destruct s as [ | c' rest]; [discriminate | ].
    destruct (Ascii.eqb_spec c' c) as [-> | _]; [ | discriminate].
    exists (String c ""), rest, []. rewrite app_nil_r.
    repeat split; [constructor | assumption].
  - destruct s as [ | c' rest]; [discriminate | ].
    destruct (p c') eqn:Hc; [ | discriminate].
    exists (String c' ""), rest, []. rewrite app_nil_r.
    repeat split; [constructor; assumption | assumption].
  - apply IH1 in Hm. destruct Hm as (a1 & rest1 & g1 & -> & M1 & Hm).
    apply IH2 in Hm. destruct Hm as (a2 & rest2 & g2 & -> & M2 & Hm).
    exists (a1 ++ a2)%string, rest2, (g1 ++ g2)%list.
    rewrite append_assoc, app_assoc.
    repeat split; [constructor; assumption | assumption].
  - destruct (match_re r1 s caps k) eqn:E.
    + apply IH1 in E. destruct E as (a & rest & g & -> & M & Hk).
      exists a, rest, g. repeat split; [constructor; assumption | congruence].
    + exists "", s, []. rewrite app_nil_r.
      repeat split; [apply matched_skip | assumption].
  - destruct s as [ | c' rest]; [discriminate | ].
    destruct (p c') eqn:Hc; [ | discriminate].
    apply star_class_run in Hm. destruct Hm as (run & rest' & -> & Hrun & Hk).
    exists (String c' run), rest', []. rewrite app_nil_r.
    repeat split; [constructor; assumption | assumption].
  - apply IH1 in Hm. destruct Hm as (a & rest & g & -> & M & Hk).
    rewrite consumed_append in Hk.
    exists a, rest, (g ++ [a])%list. rewrite app_assoc.
    repeat split; [constructor; assumption | assumption].
Qed.

(** [re.search] returns a piece of the text that the pattern matches,
    with the groups of that match. *)
Lemma re_search_sound r s m :
  re_search r s = Some m ->
  exists before a after g,
    s = (before ++ a ++ after)%string /\ matched r a g /\ m = a :: g.
Proof.
  induction s as [ | c s IH]; simpl; unfold match_at.
  - destruct (match_re r "" [] _) eqn:E; [ | discriminate].
    intro Hm. apply match_re_sound in E.
    destruct E as (a & rest & g & Hs & M & Hk).
    rewrite Hs, consumed_append in Hk. simpl in Hk.
    exists "", a, rest, g. repeat split; [exact Hs | assumption | congruence].
  - destruct (match_re r (String c s) [] _) eqn:E.
    + intro Hm. apply match_re_sound in E.
      destruct E as (a & rest & g & Hs & M & Hk).
      rewrite Hs, consumed_append in Hk. simpl in Hk.
      exists "", a, rest, g. repeat split; [exact Hs | assumption | congruence].
    + intro Hm. destruct (IH Hm) as (before & a & after & g & -> & M & ->).
      exists (String c before), a, after, g. repeat split. assumption.
Qed.

Ltac invert_matched :=
  repeat match goal with
         | M : matched (Cat _ _) _ _ |- _ => inversion M; subst; clear M
         | M : matched (Chr _) _ _ |- _ => inversion M; subst; clear M
         | M : matched (Cls _) _ _ |- _ => inversion M; subst; clear M
         | M : matched (Opt _) _ _ |- _ => inversion M; subst; clear M
         | M : matched (Group _) _ _ |- _ => inversion M; subst; clear M
         | M : matched (Plus _) _ _ |- _ => inversion M; subst; clear M
         end.

Ltac rewrite_truths :=
  repeat match goal with
         | T : _ = true |- _ => rewrite T; clear T
         end.

(** A match of the URL pattern: a scheme, then one or more characters that
    are no whitespace; it captures no group. *)
Lemma matched_url a g :
  matched url_re a g ->
  g = []
  /\ exists c body,
       (a = "http://" ++ String c body \/ a = "https://" ++ String c body)%string
       /\ forallb (fun x => negb (is_space x)) (list_ascii_of_string (String c body))
          = true.
Proof.
  unfold url_re. simpl. intro M. invert_matched; simpl.
  - split; [reflexivity | ]. exists c, a. split; [right; reflexivity | ].
    simpl in *. rewrite_truths. reflexivity.
  - split; [reflexivity | ]. exists c, a. split; [left; reflexivity | ].
    simpl in *. rewrite_truths. reflexivity.
Qed.

(** A match of the path pattern: a quote, one or more characters that are
    no quote, a quote; group 1 is what stands between the quotes. *)
Lemma matched_path a g :
  matched path_re a g ->
  exists q1 c inner q2,
    a = String q1 (String c inner ++ String q2 "")%string
    /\ g = [String c inner]
    /\ is_quote q1 = true /\ is_quote q2 = true
    /\ forallb (fun x => negb (is_quote x)) (list_ascii_of_string (String c inner))
       = true.
Proof.
  unfold path_re. intro M. invert_matched; simpl.
  match goal with
  | |- exists _ _ _ _,
         String ?q1 (String ?c (?inner ++ String ?q2 _)%string) = _ /\ _ =>
      exists q1, c, inner, q2
  end.
  repeat split; try assumption.
  simpl in *. rewrite_truths. reflexivity.
Qed.

(** [star_class] takes the whole run when what follows the run cannot
    extend it and the continuation accepts there. *)
Lemma star_class_greedy p run rest k m :
  forallb p (list_ascii_of_string run) = true ->
  match rest with
  | EmptyString => True
  | String c _ => p c = false
  end ->
  k rest = Some m ->
  star_class p (run ++ rest) k = Some m.
Proof.
  intros Hrun Hstop Hk. induction run as [ | c run IH]; simpl in *.
  - destruct rest as [ | c rest]; simpl; [exact Hk | ].
    rewrite Hstop. exact Hk.
  - apply andb_prop in Hrun. destruct Hrun as [Hc Hrun].
    rewrite Hc, (IH Hrun). reflexivity.
Qed.

(** A position whose character cannot open a match is skipped. *)
Lemma re_search_skip_path c s :
  is_quote c = false -> re_search path_re (String c s) = re_search path_re s.
Proof.
  intro Hc. simpl. unfold match_at, path_re. simpl. rewrite Hc. reflexivity.
Qed.

Lemma re_search_skip_url c s :
  c <> "h"%char -> re_search url_re (String c s) = re_search url_re s.
Proof.
  intro Hc. simpl. unfold match_at, url_re. simpl.
  destruct (Ascii.eqb_spec c "h"); [contradiction | reflexivity].
Qed.

(** The first quoted text of a task is what the path pattern finds. *)
Lemma re_search_first_quoted before q1 c inner q2 after :
  forallb (fun x => negb (is_quote x)) (list_ascii_of_string before) = true ->
  is_quote q1 = true ->
  forallb (fun x => negb (is_quote x)) (list_ascii_of_string (String c inner)) = true ->
  is_quote q2 = true ->
  re_search path_re (before ++ String q1 (String c inner ++ String q2 after))
  = Some [String q1 (String c inner ++ String q2 ""); String c inner]%string.
Proof.
  intros Hbefore Hq1 Hinner Hq2.
  induction before as [ | b before IH]; simpl in Hbefore.
  - simpl append at 1.
    cbn [re_search]. unfold match_at, path_re. cbn [match_re].
    rewrite Hq1. simpl in Hinner. apply andb_prop in Hinner.
    destruct Hinner as [Hc Hinner].
    cbn [append]. rewrite Hc.
    rewrite (star_class_greedy _ inner (String q2 after) _
               [String q1 (String c inner ++ String q2 ""); String c inner]%string);
      try reflexivity; try assumption.
    + rewrite Hq2. reflexivity.
    + rewrite Hq2. cbn [app].
      change (String c (inner ++ String q2 after))
        with (String c inner ++ String q2 after)%string.
      rewrite consumed_append.
      replace (String q1 (String c inner ++ String q2 after)%string)
        with (String q1 (String c inner ++ String q2 "") ++ after)%string.
      * rewrite consumed_append. reflexivity.
      * simpl. rewrite append_assoc. reflexivity.
  - apply andb_prop in Hbefore. destruct Hbefore as [Hb Hbefore].
    simpl append at 1. rewrite re_search_skip_path.
    + exact (IH Hbefore).
    + destruct (is_quote b); [discriminate | reflexivity].
Qed.

(** The first URL of a task is what the URL pattern finds, when no letter h
    stands before it and whitespace or the end of the task follows it. *)
Lemma re_search_first_url before (secure : bool) c body after :
  forallb (fun x => negb (Ascii.eqb x "h")) (list_ascii_of_string before) = true ->
  forallb (fun x => negb (is_space x)) (list_ascii_of_string (String c body)) = true ->
  match after with
  | EmptyString => True
  | String x _ => is_space x = true
  end ->
  let url := ((if secure then "https://" else "http://") ++ String c body)%string in
  re_search url_re (before ++ url ++ after) = Some [url].
Proof.
  intros Hbefore Hbody Hafter url.
  induction before as [ | b before IH]; simpl in Hbefore.
  - simpl append at 1. subst url.
    simpl in Hbody. apply andb_prop in Hbody. destruct Hbody as [Hc Hbody].
    assert (Hstop : match after with
                    | EmptyString => True
                    | String x _ => negb (is_space x) = false
                    end).
    { destruct after as [ | x after]; [exact I | ]. rewrite Hafter. reflexivity. }
    destruct secure; cbn [append]; cbn [re_search]; unfold match_at, url_re;
      cbn [lit match_re Ascii.eqb Bool.eqb]; rewrite Hc.
    + rewrite (star_class_greedy _ body after _
                 ["https://" ++ String c body]%string); try assumption.
      * reflexivity.
      * cbn [app].
        replace (String "h" (String "t" (String "t" (String "p" (String "s"
                  (String ":" (String "/" (String "/" (String c (body ++ after))))))))))
          with (("https://" ++ String c body) ++ after)%string by reflexivity.
        rewrite consumed_append. reflexivity.
    + rewrite (star_class_greedy _ body after _
                 ["http://" ++ String c body]%string); try assumption.
      * reflexivity.
      * cbn [app].
        replace (String "h" (String "t" (String "t" (String "p"
                  (String ":" (String "/" (String "/" (String c (body ++ after)))))))))
          with (("http://" ++ String c body) ++ after)%string by reflexivity.
        rewrite consumed_append. reflexivity.
  - apply andb_prop in Hbefore. destruct Hbefore as [Hb Hbefore].
    simpl append at 1. rewrite re_search_skip_url.
    + exact (IH Hbefore).
    + intros ->. discriminate Hb.
Qed.

Section Inference.
Context {N : Numbers} {W : Host}.

(** X1.  The URL that [infer_arguments] gives "browser_navigate" is always a
    scheme, "http://" or "https://", followed by one or more characters
    that are no whitespace; it is the default URL or a piece of the task. *)
Theorem inferred_url_shape :
  forall self schema task tr,
    exists url c body,
      infer_arguments self (PyStr "browser_navigate") schema task tr
      = (Ok [("url", PyStr url)], tr)
      /\ (url = "http://" ++ String c body \/ url = "https://" ++ String c body)%string
      /\ forallb (fun x => negb (is_space x)) (list_ascii_of_string (String c body))
         = true
      /\ (url = "https://example.com"
          \/ exists before after, task = (before ++ url ++ after)%string).
Proof.
  intros self schema task tr. unfold infer_arguments. simpl py_eq. cbv iota.
  destruct (re_search url_re task) as [m | ] eqn:Hsearch.
  - destruct (re_search_sound _ _ _ Hsearch)
      as (before & a & after & g & Htask & M & ->).
    destruct (matched_url _ _ M) as (-> & c & body & Hscheme & Hbody).
    exists a, c, body. repeat split; try assumption.
    right. exists before, after. exact Htask.
  - exists "https://example.com", "e"%char, "xample.com".
    repeat split; [right; reflexivity | left; reflexivity].
Qed.

(** X2.  The path that [infer_arguments] gives "read_file" is never empty
    and holds no quote; it is the default path or a text that stands
    between two quotes in the task. *)
Theorem inferred_path_shape :
  forall self schema task tr,
    exists c inner,
      infer_arguments self (PyStr "read_file") schema task tr
      = (Ok [("path", PyStr (String c inner))], tr)
      /\ forallb (fun x => negb (is_quote x)) (list_ascii_of_string (String c inner))
         = true
      /\ (String c inner = "README.md"
          \/ exists before q1 q2 after,
               task = (before ++ String q1 (String c inner ++ String q2 after))%string
               /\ is_quote q1 = true /\ is_quote q2 = true).
Proof.
  intros self schema task tr. unfold infer_arguments. simpl py_eq. cbv iota.
  destruct (re_search path_re task) as [m | ] eqn:Hsearch.
  - destruct (re_search_sound _ _ _ Hsearch)
      as (before & a & after & g & Htask & M & ->).
    destruct (matched_path _ _ M)
      as (q1 & c & inner & q2 & -> & -> & Hq1 & Hq2 & Hinner).
    exists c, inner. repeat split; try assumption.
    right. exists before, q1, q2, after. repeat split; try assumption.
    rewrite Htask. simpl. rewrite append_assoc. reflexivity.
  - exists "R"%char, "EADME.md". repeat split. left. reflexivity.
Qed.

(** X3.  When the first quote of the task opens a quoted text that is not
    empty, "read_file" gets that text as its path. *)
Theorem infer_path_first_quoted :
  forall self schema before q1 c inner q2 after tr,
    forallb (fun x => negb (is_quote x)) (list_ascii_of_string before) = true ->
    is_quote q1 = true ->
    forallb (fun x => negb (is_quote x)) (list_ascii_of_string (String c inner))
    = true ->
    is_quote q2 = true ->
    infer_arguments self (PyStr "read_file") schema
      (before ++ String q1 (String c inner ++ String q2 after)) tr
    = (Ok [("path", PyStr (String c inner))], tr).
Proof.
  intros self schema before q1 c inner q2 after tr Hbefore Hq1 Hinner Hq2.
  unfold infer_arguments. simpl py_eq. cbv iota.
  rewrite (re_search_first_quoted before q1 c inner q2 after Hbefore Hq1 Hinner Hq2).
  reflexivity.
Qed.

(** X4.  When no letter h stands before the first URL of the task, and
    whitespace or the end of the task follows that URL, "browser_navigate"
    gets that URL. *)
Theorem infer_url_first_url :
  forall self schema before (secure : bool) c body after tr,
    forallb (fun x => negb (Ascii.eqb x "h")) (list_ascii_of_string before) = true ->
    forallb (fun x => negb (is_space x)) (list_ascii_of_string (String c body))
    = true ->
    match after with
    | EmptyString => True
    | String x _ => is_space x = true
    end ->
    infer_arguments self (PyStr "browser_navigate") schema
      (before ++ ((if secure then "https://" else "http://") ++ String c body) ++ after)
      tr
    = (Ok [("url", PyStr ((if secure then "https://" else "http://") ++ String c body))],
       tr).
Proof.
  intros self schema before secure c body after tr Hbefore Hbody Hafter.
  unfold infer_arguments. simpl py_eq. cbv iota.
  rewrite (re_search_first_url before secure c body after Hbefore Hbody Hafter).
  reflexivity.
Qed.


End Inference.

Section Envelope.
Context {N : Numbers} {W : Host}.

(** Each phase stops at the envelope check when the check raises. *)
Lemma phases_stop_at_check self response tr tr' (err : string -> exn) :
  (forall label, check_success label response tr' = (Raise (err label), tr')) ->
  (forall task,
     _exec_mcp self (discover_command task) tr = (Ok response, tr') ->
     discover self task tr = (Raise (err "Discovery"), tr'))
  /\ (forall server tools tool_list,
        py_join " " tools = Ok tool_list ->
        _exec_mcp self (schema_command server tool_list) tr = (Ok response, tr') ->
        load_schemas self server tools tr = (Raise (err "Schema loading"), tr'))
  /\ (forall server tool args,
        _exec_mcp self (exec_command server tool args) tr = (Ok response, tr') ->
        exec_tool self server tool args tr = (Raise (err "Execution"), tr'))
  /\ (forall server operations transactional,
        _exec_mcp self (batch_command server operations transactional) tr
        = (Ok response, tr') ->
        batch self server operations transactional tr
        = (Raise (err "Batch execution"), tr')).
Proof.
  intro Hcheck. repeat split.
  - intros task Hexec. unfold discover.
    rewrite (bind_ok _ _ _ _ _ Hexec). apply bind_raise, Hcheck.
  - intros server tools tool_list Hjoin Hexec.
    destruct (py_join_len _ _ _ Hjoin) as [n Hlen]. unfold load_schemas.
    rewrite (bind_lift_ok _ _ _ _ Hlen), (bind_lift_ok _ _ _ _ Hjoin),
      (bind_ok _ _ _ _ _ Hexec).
    apply bind_raise, Hcheck.
  - intros server tool args Hexec. unfold exec_tool.
    rewrite (bind_ok _ _ _ _ _ Hexec). apply bind_raise, Hcheck.
  - intros server operations transactional Hexec. unfold batch.
    rewrite (bind_ok _ _ _ _ _ Hexec). apply bind_raise, Hcheck.
Qed.

(** X6.  When the external process cannot be run for the Discovery
    request, [main] reports the [RuntimeError] "Failed to execute MCP
    command: " followed by the text of the cause, exits with status 1 and
    tries no other command. *)
Theorem transport_failure_aborts_run :
  forall prog task rest why,
    subprocess_run [] (full_command default_agent (discover_command task)) = inl why ->
    main (prog :: task :: rest)
    = (Failed (RuntimeError ("Failed to execute MCP command: " ++ why)),
       [full_command default_agent (discover_command task)])
    /\ exit_status (fst (main (prog :: task :: rest))) = 1%Z.
Proof.
  intros prog task rest why Hrun.
  assert (Hmain : main (prog :: task :: rest)
                  = (Failed (RuntimeError ("Failed to execute MCP command: " ++ why)),
                     [full_command default_agent (discover_command task)])).
  { unfold main, execute_task, discover, bind, _exec_mcp.
    rewrite Hrun. reflexivity. }
  split; [exact Hmain | rewrite Hmain; reflexivity].
Qed.

(** X7.  An error of the Command Gateway leaves each phase unchanged, with
    the commands run so far; raised in Discovery it is the error of the
    whole run. *)
Theorem gateway_error_propagates :
  forall self command e tr tr',
    _exec_mcp self command tr = (Raise e, tr') ->
    (forall task, command = discover_command task ->
       discover self task tr = (Raise e, tr')
       /\ execute_task self task tr = (Raise e, tr'))
    /\ (forall server tools tool_list,
          py_join " " tools = Ok tool_list ->
          command = schema_command server tool_list ->
          load_schemas self server tools tr = (Raise e, tr'))
    /\ (forall server tool args,
          command = exec_command server tool args ->
          exec_tool self server tool args tr = (Raise e, tr'))
    /\ (forall server operations transactional,
          command = batch_command server operations transactional ->
          batch self server operations transactional tr = (Raise e, tr')).
Proof.
  intros self command e tr tr' Hexec. repeat split.
  - subst command. unfold discover. apply bind_raise, Hexec.
  - subst command. unfold execute_task, discover.
    apply bind_raise, bind_raise, Hexec.
  - intros server tools tool_list Hjoin ->.
    destruct (py_join_len _ _ _ Hjoin) as [n Hlen]. unfold load_schemas.
    rewrite (bind_lift_ok _ _ _ _ Hlen), (bind_lift_ok _ _ _ _ Hjoin).
    apply bind_raise, Hexec.
  - intros server tool args ->. unfold exec_tool. apply bind_raise, Hexec.
  - intros server operations transactional ->. unfold batch.
    apply bind_raise, Hexec.
Qed.

(** X8.  When a response does not report success and its [error] is a
    mapping, each phase raises a [RuntimeError] whose text is the label of
    the phase, " failed: " and the [message] of the error, or "Unknown
    error" when the error has no message. *)
Theorem phase_failure_message :
  forall self response s err tr tr',
    py_get response "success" PyNone = Ok s ->
    py_truthy s = false ->
    py_get response "error" (PyDict []) = Ok (PyDict err) ->
    let message :=
      match dict_lookup "message" err with
      | Some v => py_str v
      | None => "Unknown error"
      end in
    (forall task,
       _exec_mcp self (discover_command task) tr = (Ok response, tr') ->
       discover self task tr
       = (Raise (RuntimeError ("Discovery failed: " ++ message)), tr'))
    /\ (forall server tools tool_list,
          py_join " " tools = Ok tool_list ->
          _exec_mcp self (schema_command server tool_list) tr = (Ok response, tr') ->
          load_schemas self server tools tr
          = (Raise (RuntimeError ("Schema loading failed: " ++ message)), tr'))
    /\ (forall server tool args,
          _exec_mcp self (exec_command server tool args) tr = (Ok response, tr') ->
          exec_tool self server tool args tr
          = (Raise (RuntimeError ("Execution failed: " ++ message)), tr'))
    /\ (forall server operations transactional,
          _exec_mcp self (batch_command server operations transactional) tr
          = (Ok response, tr') ->
          batch self server operations transactional tr
          = (Raise (RuntimeError ("Batch execution failed: " ++ message)), tr')).
Proof.
  intros self response s err tr tr' Hs Hfalse Herr message.
  apply (phases_stop_at_check self response tr tr'
           (fun label => RuntimeError (label ++ " failed: " ++ message))).
  intro label. unfold check_success.
  rewrite (bind_lift_ok _ _ _ _ Hs), Hfalse. cbn [negb].
  rewrite (bind_lift_ok _ _ _ _ Herr).
  unfold bind, lift, raise, phase_error, message. simpl.
  destruct (dict_lookup "message" err); reflexivity.
Qed.

(** X9.  A response that is no JSON object, or one that does not report
    success and whose [error] is no JSON object, makes each phase raise
    [AttributeError] instead of its phase error. *)
Theorem malformed_envelope_raises_attribute_error :
  forall self response tr tr',
    (is_dict response = false
     \/ exists s e,
          py_get response "success" PyNone = Ok s /\ py_truthy s = false
          /\ py_get response "error" (PyDict []) = Ok e /\ is_dict e = false) ->
    (forall task,
       _exec_mcp self (discover_command task) tr = (Ok response, tr') ->
       discover self task tr = (Raise AttributeError, tr'))
    /\ (forall server tools tool_list,
          py_join " " tools = Ok tool_list ->
          _exec_mcp self (schema_command server tool_list) tr = (Ok response, tr') ->
          load_schemas self server tools tr = (Raise AttributeError, tr'))
    /\ (forall server tool args,
          _exec_mcp self (exec_command server tool args) tr = (Ok response, tr') ->
          exec_tool self server tool args tr = (Raise AttributeError, tr'))
    /\ (forall server operations transactional,
          _exec_mcp self (batch_command server operations transactional) tr
          = (Ok response, tr') ->
          batch self server operations transactional tr
          = (Raise AttributeError, tr')).
Proof.
  intros self response tr tr' Hbad.
  apply (phases_stop_at_check self response tr tr' (fun _ => AttributeError)).
  intro label. unfold check_success.
  destruct Hbad as [Hno | (s & e & Hs & Hfalse & He & Hno)].
  - destruct response; try discriminate Hno; reflexivity.
  - rewrite (bind_lift_ok _ _ _ _ Hs), Hfalse. cbn [negb].
    rewrite (bind_lift_ok _ _ _ _ He).
    destruct e; try discriminate Hno; reflexivity.
Qed.

(** X10.  A response that reports success and whose [metadata] is no JSON
    object makes the Schema, Execution and Batch phases raise
    [AttributeError] after the command has been run: the payload is lost. *)
Theorem non_object_metadata_fails_phase :
  forall self response s metadata tr tr',
    py_get response "success" PyNone = Ok s ->
    py_truthy s = true ->
    py_get response "metadata" (PyDict []) = Ok metadata ->
    is_dict metadata = false ->
    (forall server tools tool_list,
       py_join " " tools = Ok tool_list ->
       _exec_mcp self (schema_command server tool_list) tr = (Ok response, tr') ->
       load_schemas self server tools tr = (Raise AttributeError, tr'))
    /\ (forall server tool args,
          _exec_mcp self (exec_command server tool args) tr = (Ok response, tr') ->
          exec_tool self server tool args tr = (Raise AttributeError, tr'))
    /\ (forall server operations transactional,
          _exec_mcp self (batch_command server operations transactional) tr
          = (Ok response, tr') ->
          batch self server operations transactional tr
          = (Raise AttributeError, tr')).
Proof.
  intros self response s metadata tr tr' Hs Htrue Hmd Hno.
  assert (Hcheck : forall label, check_success label response tr' = (Ok tt, tr')).
  { intro label. unfold check_success.
    rewrite (bind_lift_ok _ _ _ _ Hs), Htrue. reflexivity. }
  assert (Hmeta : forall field,
             read_metadata response field tr' = (Raise AttributeError, tr')).
  { intro field. unfold read_metadata. rewrite (bind_lift_ok _ _ _ _ Hmd).
    destruct metadata; try discriminate Hno; reflexivity. }
  assert (Hdata : exists data, py_get response "data" PyNone = Ok data).
  { destruct response; try discriminate Hs. simpl.
    destruct (dict_lookup "data" d); eauto. }
  destruct Hdata as [data Hdata].
  repeat split.
  - intros server tools tool_list Hjoin Hexec.
    destruct (py_join_len _ _ _ Hjoin) as [n Hlen]. unfold load_schemas.
    rewrite (bind_lift_ok _ _ _ _ Hlen), (bind_lift_ok _ _ _ _ Hjoin),
      (bind_ok _ _ _ _ _ Hexec), (bind_ok _ _ _ _ _ (Hcheck _)),
      (bind_lift_ok _ _ _ _ Hdata).
    apply bind_raise, Hmeta.
  - intros server tool args Hexec. unfold exec_tool.
    rewrite (bind_ok _ _ _ _ _ Hexec), (bind_ok _ _ _ _ _ (Hcheck _)).
    apply bind_raise, Hmeta.
  - intros server operations transactional Hexec. unfold batch.
    rewrite (bind_ok _ _ _ _ _ Hexec), (bind_ok _ _ _ _ _ (Hcheck _)).
    apply bind_raise, Hmeta.
Qed.

End Envelope.

Section Orchestration.
Context {N : Numbers} {W : Host}.

(** X11.  A Discovery response that reports success and has no [data]
    field gives the empty result, and the run ends with the no-match error
    after that one command; a [data] field that is null makes Discovery
    raise [AttributeError]. *)
Theorem discovery_without_data :
  forall self task tr env s md tr',
    _exec_mcp self (discover_command task) tr = (Ok (PyDict env), tr') ->
    dict_lookup "success" env = Some s ->
    py_truthy s = true ->
    py_get (PyDict env) "metadata" (PyDict []) = Ok (PyDict md) ->
    (dict_lookup "data" env = None ->
       discover self task tr = (Ok (PyDict []), tr')
       /\ execute_task self task tr
          = (Raise (RuntimeError "No matching tools found for the task"), tr'))
    /\ (dict_lookup "data" env = Some PyNone ->
          discover self task tr = (Raise AttributeError, tr')).
Proof.
  intros self task tr env s md tr' Hexec Hs Htrue Hmd.
  assert (Hcheck : check_success "Discovery" (PyDict env) tr' = (Ok tt, tr')).
  { unfold check_success, bind, lift. simpl. rewrite Hs, Htrue. reflexivity. }
  assert (Hmeta : exists v,
             read_metadata (PyDict env) "tokensEstimate" tr' = (Ok v, tr')).
  { unfold read_metadata. rewrite (bind_lift_ok _ _ _ _ Hmd).
    unfold lift. simpl. destruct (dict_lookup "tokensEstimate" md); eauto. }
  destruct Hmeta as [v Hmeta].
  split; intro Hdata.
  - assert (Hdisc : discover self task tr = (Ok (PyDict []), tr')).
    { unfold discover.
      rewrite (bind_ok _ _ _ _ _ Hexec), (bind_ok _ _ _ _ _ Hcheck).
      unfold bind at 1, lift at 1. simpl py_get. rewrite Hdata.
      unfold bind at 1, lift at 1. simpl py_get.
      unfold bind at 1, lift at 1. simpl py_len.
      unfold bind at 1, lift at 1. simpl py_get. simpl py_truthy. cbv iota.
      unfold bind at 1, ret at 1.
      rewrite (bind_ok _ _ _ _ _ Hmeta). reflexivity. }
    split; [exact Hdisc | ].
    unfold execute_task. rewrite (bind_ok _ _ _ _ _ Hdisc). reflexivity.
  - unfold discover.
    rewrite (bind_ok _ _ _ _ _ Hexec), (bind_ok _ _ _ _ _ Hcheck).
    unfold bind at 1, lift at 1. simpl py_get. rewrite Hdata. reflexivity.
Qed.

(** X12.  A suggested batch that lacks its [server], or its [operations],
    makes Discovery itself raise [KeyError] for that key, when it writes its
    progress line: the result is not returned. *)
Theorem suggested_batch_missing_field :
  forall self task tr response s result matches sb tr',
    _exec_mcp self (discover_command task) tr = (Ok response, tr') ->
    py_get response "success" PyNone = Ok s ->
    py_truthy s = true ->
    py_get response "data" (PyDict []) = Ok (PyDict result) ->
    dict_lookup "matches" result = Some (PyList matches) ->
    dict_lookup "suggested_batch" result = Some (PyDict sb) ->
    py_truthy (PyDict sb) = true ->
    (dict_lookup "server" sb = None ->
       discover self task tr = (Raise (KeyError (Key "server")), tr'))
    /\ (forall server,
          dict_lookup "server" sb = Some server ->
          dict_lookup "operations" sb = None ->
          discover self task tr = (Raise (KeyError (Key "operations")), tr')).
Proof.
  intros self task tr response s result matches sb tr'
         Hexec Hs Htrue Hdata Hmatches Hsb Hsbtrue.
  assert (Hcheck : check_success "Discovery" response tr' = (Ok tt, tr')).
  { unfold check_success. rewrite (bind_lift_ok _ _ _ _ Hs), Htrue. reflexivity. }
  assert (Hm : py_get (PyDict result) "matches" (PyList []) = Ok (PyList matches)).
  { simpl. rewrite Hmatches. reflexivity. }
  assert (Hg : py_get (PyDict result) "suggested_batch" PyNone = Ok (PyDict sb)).
  { simpl. rewrite Hsb. reflexivity. }
  assert (Hi : py_getitem (PyDict result) (Key "suggested_batch") = Ok (PyDict sb)).
  { simpl. rewrite Hsb. reflexivity. }
  assert (Hstart : discover self task tr
                   = bind (bind (lift (py_getitem (PyDict sb) (Key "server")))
                             (fun _ =>
                                bind (lift (py_getitem (PyDict sb) (Key "operations")))
                                  (fun operations =>
                                     bind (lift (py_len operations))
                                       (fun _ => ret tt))))
                       (fun _ =>
                          bind (read_metadata response "tokensEstimate")
                            (fun _ => ret (PyDict result))) tr').
  { unfold discover.
    rewrite (bind_ok _ _ _ _ _ Hexec), (bind_ok _ _ _ _ _ Hcheck),
      (bind_lift_ok _ _ _ _ Hdata), (bind_lift_ok _ _ _ _ Hm).
    rewrite (bind_lift_ok (py_len (PyList matches)) _ _ _ eq_refl).
    rewrite (bind_lift_ok _ _ _ _ Hg), Hsbtrue.
    unfold bind, lift. rewrite Hi. reflexivity. }
  rewrite Hstart. split.
  - intro Hserver. unfold bind, lift. simpl py_getitem. rewrite Hserver. reflexivity.
  - intros server Hserver Hops. unfold bind, lift. simpl py_getitem.
    rewrite Hserver, Hops. reflexivity.
Qed.

(** X13.  In the single-tool branch a top match that has no [confidence]
    ends the run with [KeyError] right after Discovery, although the
    confidence only goes to the progress line: no schema is loaded and no
    tool is executed. *)
Theorem match_without_confidence :
  forall self task tr discovery tr1 m others suggested,
    discover self task tr = (Ok discovery, tr1) ->
    py_get discovery "matches" (PyList []) = Ok (PyList (PyDict m :: others)) ->
    py_get discovery "suggested_batch" PyNone = Ok suggested ->
    py_truthy suggested = false ->
    dict_lookup "confidence" m = None ->
    execute_task self task tr = (Raise (KeyError (Key "confidence")), tr1).
Proof.
  intros self task tr discovery tr1 m others suggested
         Hdisc Hmatches Hsuggested Hfalse Hc.
  rewrite (execute_task_branch self task tr discovery tr1 _ suggested
             Hdisc Hmatches eq_refl Hsuggested).
  rewrite Hfalse. unfold single_strategy, bind, lift. simpl.
  rewrite Hc. reflexivity.
Qed.

(** X14.  In the single-tool branch a top match whose [tool] is no string
    ends the run with [TypeError] before the Schema request is sent. *)
Theorem non_string_tool_stops_before_schema :
  forall self task tr discovery tr1 top others suggested c server tool,
    discover self task tr = (Ok discovery, tr1) ->
    py_get discovery "matches" (PyList []) = Ok (PyList (top :: others)) ->
    py_get discovery "suggested_batch" PyNone = Ok suggested ->
    py_truthy suggested = false ->
    py_getitem top (Key "confidence") = Ok c ->
    py_getitem top (Key "server") = Ok server ->
    py_getitem top (Key "tool") = Ok tool ->
    is_str tool = false ->
    execute_task self task tr = (Raise TypeError, tr1).
Proof.
  intros self task tr discovery tr1 top others suggested c server tool
         Hdisc Hmatches Hsuggested Hfalse Hc Hserver Htool Hno.
  rewrite (execute_task_branch self task tr discovery tr1 _ suggested
             Hdisc Hmatches eq_refl Hsuggested).
  rewrite Hfalse. unfold single_strategy.
  rewrite (bind_lift_ok (py_getitem (PyList (top :: others)) (Index 0)) _ _ top eq_refl).
  rewrite (bind_lift_ok _ _ _ _ Hc), (bind_lift_ok _ _ _ _ Hserver),
    (bind_lift_ok _ _ _ _ Htool).
  apply bind_raise. unfold load_schemas, bind, lift. simpl.
  destruct tool; try discriminate Hno; reflexivity.
Qed.

(** X15.  A run of [main] on the single-tool branch whose Execution
    response reports success prints the [data] of that response and exits
    with status 0. *)
Theorem single_path_success :
  forall prog task rest discovery tr1 top others suggested c server tool
         s0 ss tr2 args response data tr3,
    discover default_agent task [] = (Ok discovery, tr1) ->
    py_get discovery "matches" (PyList []) = Ok (PyList (top :: others)) ->
    py_get discovery "suggested_batch" PyNone = Ok suggested ->
    py_truthy suggested = false ->
    py_getitem top (Key "confidence") = Ok c ->
    py_getitem top (Key "server") = Ok server ->
    py_getitem top (Key "tool") = Ok tool ->
    load_schemas default_agent server (PyList [tool]) tr1 = (Ok (s0 :: ss), tr2) ->
    infer_arguments default_agent tool s0 task tr2 = (Ok args, tr2) ->
    _exec_mcp default_agent (exec_command server tool args) tr2 = (Ok response, tr3) ->
    successful response data ->
    main (prog :: task :: rest) = (Printed data, tr3)
    /\ exit_status (fst (main (prog :: task :: rest))) = 0%Z.
Proof.
  intros prog task rest discovery tr1 top others suggested c server tool
         s0 ss tr2 args response data tr3
         Hdisc Hmatches Hsuggested Hfalse Hc Hserver Htool Hload Hargs Hexec Hsucc.
  assert (Hrun : execute_task default_agent task [] = (Ok data, tr3)).
  { rewrite (execute_task_branch default_agent task [] discovery tr1
               (PyList (top :: others)) suggested Hdisc Hmatches eq_refl Hsuggested).
    rewrite Hfalse. unfold single_strategy.
    rewrite (bind_lift_ok (py_getitem (PyList (top :: others)) (Index 0)) _ _ top eq_refl).
    rewrite (bind_lift_ok _ _ _ _ Hc), (bind_lift_ok _ _ _ _ Hserver),
      (bind_lift_ok _ _ _ _ Htool), (bind_ok _ _ _ _ _ Hload),
      (bind_lift_ok _ _ _ _ Htool).
    rewrite (bind_lift_ok (list_getitem (s0 :: ss) 0) _ _ s0 eq_refl).
    rewrite (bind_ok _ _ _ _ _ Hargs), (bind_lift_ok _ _ _ _ Hserver),
      (bind_lift_ok _ _ _ _ Htool).
    unfold exec_tool.
    rewrite (bind_ok _ _ _ _ _ Hexec),
      (bind_ok _ _ _ _ _ (check_success_passes _ _ _ tr3 Hsucc)).
    destruct (read_metadata_passes response data "executionTime" tr3 Hsucc)
      as [v Hv].
    rewrite (bind_ok _ _ _ _ _ Hv).
    destruct Hsucc as (_ & _ & Hdata). unfold lift. rewrite Hdata. reflexivity. }
  unfold main. rewrite Hrun. split; reflexivity.
Qed.

End Orchestration.

Section BatchPlanning.
Context {N : Numbers} {W : Host}.

Lemma infer_arguments_schema_irrelevant self tool_name (s1 s2 : value) task tr :
  infer_arguments self tool_name s1 task tr
  = infer_arguments self tool_name s2 task tr.
Proof.
  unfold infer_arguments.
  destruct (py_eq tool_name (PyStr "browser_navigate")); [reflexivity | ].
  destruct (py_eq tool_name (PyStr "browser_screenshot")); [reflexivity | ].
  destruct (py_eq tool_name (PyStr "read_file")); reflexivity.
Qed.

Lemma find_schema_named schemas tool_name :
  Forall named_schema schemas -> exists s, find_schema schemas tool_name = Ok s.
Proof.
  induction 1 as [ | s schemas (d & name & -> & Hname) _ IH]; simpl.
  - eauto.
  - rewrite Hname. destruct (py_eq name tool_name); eauto.
Qed.

(** X16.  The lookup of line 211 returns [None] or a schema of the
    sequence whose [name] equals the tool name, and every schema that
    stands before it has a [name] that differs. *)
Theorem find_schema_returns_first_named :
  forall schemas tool_name s,
    find_schema schemas tool_name = Ok s ->
    (s = PyNone
     /\ Forall (fun x => exists name,
                  py_getitem x (Key "name") = Ok name
                  /\ py_eq name tool_name = false) schemas)
    \/ exists before after name,
         schemas = (before ++ s :: after)%list
         /\ py_getitem s (Key "name") = Ok name
         /\ py_eq name tool_name = true
         /\ Forall (fun x => exists other,
                      py_getitem x (Key "name") = Ok other
                      /\ py_eq other tool_name = false) before.
Proof.
  induction schemas as [ | x schemas IH]; simpl; intros tool_name s Hfind.
  - left. split; [congruence | constructor].
  - destruct (py_getitem x (Key "name")) as [name | e] eqn:Hname; [ | discriminate].
    destruct (py_eq name tool_name) eqn:Heq.
    + right. exists [], schemas, name.
      assert (x = s) by congruence. subst x.
      repeat split; try assumption. constructor.
    + destruct (IH _ _ Hfind) as [[-> Hall] | (before & after & n & -> & Hn & Hy & Hb)].
      * left. split; [reflexivity | ]. constructor; eauto.
      * right. exists (x :: before), after, n.
        repeat split; try assumption. constructor; eauto.
Qed.

(** X17.  When the loop of lines 209-213 completes, it has built one
    operation for each tool name, in the order of the names: the mapping
    with the name under [tool] and the inferred arguments under [args];
    it has run no command. *)
Theorem batch_operations_follow_names :
  forall self schemas names task tr ops tr',
    build_batch_ops self schemas names task tr = (Ok ops, tr') ->
    tr' = tr
    /\ Forall2 (fun name op =>
                  exists args,
                    infer_arguments self name PyNone task tr = (Ok args, tr)
                    /\ op = PyDict [("tool", name); ("args", PyDict args)])
               names ops.
Proof.
  intros self schemas names task tr.
  induction names as [ | name names IH]; intros ops tr' Hbuild.
  - simpl in Hbuild. unfold ret in Hbuild.
    assert (ops = []) by congruence. assert (tr' = tr) by congruence.
    subst. split; [reflexivity | constructor].
  - simpl in Hbuild.
    destruct (find_schema schemas name) as [schema | e] eqn:Hfind.
    2:{ rewrite (bind_lift_raise (Raise e) _ _ e eq_refl) in Hbuild. discriminate. }
    rewrite (bind_lift_ok (Ok schema) _ _ schema eq_refl) in Hbuild.
    destruct (infer_arguments_returns self name schema task tr) as [args Hargs].
    rewrite (bind_ok _ _ _ _ _ Hargs) in Hbuild.
    destruct (build_batch_ops self schemas names task tr) as [[more | e] tr0] eqn:Hrest.
    2:{ rewrite (bind_raise _ _ _ _ _ Hrest) in Hbuild. discriminate. }
    rewrite (bind_ok _ _ _ _ _ Hrest) in Hbuild. unfold ret in Hbuild.
    destruct (IH more tr0 eq_refl) as [-> Hall].
    assert (tr' = tr) by congruence.
    assert (ops = PyDict [("tool", name); ("args", PyDict args)] :: more) by congruence.
    subst. split; [reflexivity | ]. constructor; [ | exact Hall].
    exists args. split; [ | reflexivity].
    rewrite <- Hargs. apply infer_arguments_schema_irrelevant.
Qed.

(** X18.  The planning of a batch completes whenever every schema the
    Schema phase returned is a mapping with a [name], whatever the tool
    names are and also when no schema was returned: a tool with no schema
    still gets its operation. *)
Theorem batch_planning_tolerates_missing_schemas :
  forall self schemas names task tr,
    Forall named_schema schemas ->
    exists ops,
      build_batch_ops self schemas names task tr = (Ok ops, tr)
      /\ List.length ops = List.length names.
Proof.
  intros self schemas names task tr Hnamed.
  induction names as [ | name names (more & Hmore & Hlen)]; simpl.
  - exists []. split; reflexivity.
  - destruct (find_schema_named schemas name Hnamed) as [schema Hfind].
    destruct (infer_arguments_returns self name schema task tr) as [args Hargs].
    exists (PyDict [("tool", name); ("args", PyDict args)] :: more).
    rewrite (bind_lift_ok _ _ _ _ Hfind), (bind_ok _ _ _ _ _ Hargs),
      (bind_ok _ _ _ _ _ Hmore).
    split; [reflexivity | simpl; rewrite Hlen; reflexivity].
Qed.

(** X19.  In the batch branch, when the first schema the Schema phase
    returned is no mapping (as [None] is, which a response with no [data]
    gives) and the batch names a tool, the lookup raises [TypeError]: the
    run ends after the Schema request and no batch is executed. *)
Theorem batch_branch_fails_on_unreadable_schema :
  forall self task tr discovery tr1 matches suggested server name names
         s0 schemas tr2,
    discover self task tr = (Ok discovery, tr1) ->
    py_get discovery "matches" (PyList []) = Ok matches ->
    py_truthy matches = true ->
    py_get discovery "suggested_batch" PyNone = Ok suggested ->
    py_truthy suggested = true ->
    py_getitem suggested (Key "server") = Ok server ->
    py_getitem suggested (Key "operations") = Ok (PyList (name :: names)) ->
    load_schemas self server (PyList (name :: names)) tr1 = (Ok (s0 :: schemas), tr2) ->
    is_dict s0 = false ->
    execute_task self task tr = (Raise TypeError, tr2).
Proof.
  intros self task tr discovery tr1 matches suggested server name names
         s0 schemas tr2 Hdisc Hmatches Htrue Hsuggested Hbatch Hserver Hops
         Hload Hno.
  rewrite (execute_task_branch self task tr discovery tr1 matches suggested
             Hdisc Hmatches Htrue Hsuggested).
  rewrite Hbatch. unfold batch_strategy.
  rewrite (bind_lift_ok _ _ _ _ Hserver), (bind_lift_ok _ _ _ _ Hops).
  rewrite (bind_lift_ok (py_len (PyList (name :: names))) _ _ _ eq_refl).
  rewrite (bind_ok _ _ _ _ _ Hload).
  rewrite (bind_lift_ok (py_iter (PyList (name :: names))) _ _ _ eq_refl).
  apply bind_raise. simpl. apply bind_lift_raise. simpl.
  destruct s0; try discriminate Hno; reflexivity.
Qed.

(** X20.  A run on the batch branch whose Schema phase and planning
    complete and whose Batch response reports success returns the [data] of
    that response; the Batch request carries the planned operations and the
    transactional flag off, and it is the last command of the run. *)
Theorem batch_path_success :
  forall self task tr discovery tr1 matches suggested server names
         schemas tr2 ops response data tr3,
    discover self task tr = (Ok discovery, tr1) ->
    py_get discovery "matches" (PyList []) = Ok matches ->
    py_truthy matches = true ->
    py_get discovery "suggested_batch" PyNone = Ok suggested ->
    py_truthy suggested = true ->
    py_getitem suggested (Key "server") = Ok server ->
    py_getitem suggested (Key "operations") = Ok (PyList names) ->
    load_schemas self server (PyList names) tr1 = (Ok schemas, tr2) ->
    build_batch_ops self schemas names task tr2 = (Ok ops, tr2) ->
    _exec_mcp self (batch_command server ops false) tr2 = (Ok response, tr3) ->
    successful response data ->
    execute_task self task tr = (Ok data, tr3)
    /\ tr3 = (tr2 ++ [full_command self (batch_command server ops false)])%list.
Proof.
  intros self task tr discovery tr1 matches suggested server names
         schemas tr2 ops response data tr3
         Hdisc Hmatches Htrue Hsuggested Hbatch Hserver Hops Hload Hbuild
         Hexec Hsucc.
  split.
  - rewrite (execute_task_branch self task tr discovery tr1 matches suggested
               Hdisc Hmatches Htrue Hsuggested).
    rewrite Hbatch. unfold batch_strategy.
    rewrite (bind_lift_ok _ _ _ _ Hserver), (bind_lift_ok _ _ _ _ Hops).
    rewrite (bind_lift_ok (py_len (PyList names)) _ _ _ eq_refl).
    rewrite (bind_ok _ _ _ _ _ Hload).
    rewrite (bind_lift_ok (py_iter (PyList names)) _ _ _ eq_refl).
    rewrite (bind_ok _ _ _ _ _ Hbuild).
    unfold batch.
    rewrite (bind_ok _ _ _ _ _ Hexec),
      (bind_ok _ _ _ _ _ (check_success_passes _ _ _ tr3 Hsucc)).
    destruct (read_metadata_passes response data "executionTime" tr3 Hsucc)
      as [v Hv].
    rewrite (bind_ok _ _ _ _ _ Hv).
    destruct Hsucc as (_ & _ & Hdata). unfold lift. rewrite Hdata. reflexivity.
  - destruct (_exec_mcp_runs_once self (batch_command server ops false) tr2)
      as [r Hr].
    rewrite Hr in Hexec. congruence.
Qed.

(** X21.  A failure of the Schema phase is the failure of the run, in
    either branch: [execute_task] raises the same error and runs no
    command after those of the Schema phase; it does not fall back on the
    other strategy. *)
Theorem schema_failure_aborts_run :
  forall self task tr discovery tr1 matches suggested e tr2,
    discover self task tr = (Ok discovery, tr1) ->
    py_get discovery "matches" (PyList []) = Ok matches ->
    py_truthy matches = true ->
    py_get discovery "suggested_batch" PyNone = Ok suggested ->
    (forall server operations n,
       py_truthy suggested = true ->
       py_getitem suggested (Key "server") = Ok server ->
       py_getitem suggested (Key "operations") = Ok operations ->
       py_len operations = Ok n ->
       load_schemas self server operations tr1 = (Raise e, tr2) ->
       execute_task self task tr = (Raise e, tr2))
    /\ (forall top others c server tool,
          py_truthy suggested = false ->
          matches = PyList (top :: others) ->
          py_getitem top (Key "confidence") = Ok c ->
          py_getitem top (Key "server") = Ok server ->
          py_getitem top (Key "tool") = Ok tool ->
          load_schemas self server (PyList [tool]) tr1 = (Raise e, tr2) ->
          execute_task self task tr = (Raise e, tr2)).
Proof.
  intros self task tr discovery tr1 matches suggested e tr2
         Hdisc Hmatches Htrue Hsuggested.
  pose proof (execute_task_branch self task tr discovery tr1 matches suggested
                Hdisc Hmatches Htrue Hsuggested) as Hbranch.
  split.
  - intros server operations n Hbatch Hserver Hops Hlen Hload.
    rewrite Hbranch, Hbatch. unfold batch_strategy.
    rewrite (bind_lift_ok _ _ _ _ Hserver), (bind_lift_ok _ _ _ _ Hops),
      (bind_lift_ok _ _ _ _ Hlen).
    apply bind_raise, Hload.
  - intros top others c server tool Hsingle -> Hc Hserver Htool Hload.
    rewrite Hbranch, Hsingle. unfold single_strategy.
    rewrite (bind_lift_ok (py_getitem (PyList (top :: others)) (Index 0)) _ _ top eq_refl).
    rewrite (bind_lift_ok _ _ _ _ Hc), (bind_lift_ok _ _ _ _ Hserver),
      (bind_lift_ok _ _ _ _ Htool).
    apply bind_raise, Hload.
Qed.

End BatchPlanning.

Section RunShape.
Context {N : Numbers} {W : Host}.

Lemma load_schemas_shape self server tools tr :
  exists r new,
    load_schemas self server tools tr = (r, (tr ++ new)%list)
    /\ ((new = [] /\ exists e, r = Raise e)
        \/ exists tool_list,
             new = [full_command self (schema_command server tool_list)]).
Proof.
  destruct (py_join " " tools) as [tool_list | e] eqn:Hjoin.
  - destruct (load_schemas_runs_once self server tools tool_list Hjoin tr) as [r Hr].
    exists r, [full_command self (schema_command server tool_list)].
    split; [exact Hr | right; eauto].
  - unfold load_schemas, bind, lift.
    destruct (py_len tools) as [n | e'].
    + rewrite Hjoin. exists (Raise e), []. rewrite app_nil_r. split; eauto.
    + exists (Raise e'), []. rewrite app_nil_r. split; eauto.
Qed.

Lemma planned_nothing self e : planned_calls self (Raise e) [].
Proof. left. split; eauto. Qed.

Lemma single_strategy_shape self task matches tr :
  exists r new,
    single_strategy self task matches tr = (r, (tr ++ new)%list)
    /\ planned_calls self r new.
Proof.
  assert (Hstop : forall e, exists r new,
             (@Raise value e, tr) = (r, (tr ++ new)%list) /\ planned_calls self r new).
  { intro e. exists (Raise e), []. rewrite app_nil_r.
    split; [reflexivity | apply planned_nothing]. }
  unfold single_strategy.
  destruct (py_getitem matches (Index 0)) as [top | e].
  2:{ rewrite (bind_lift_raise (Raise e) _ _ e eq_refl). apply Hstop. }
  rewrite (bind_lift_ok (Ok top) _ _ top eq_refl).
  destruct (py_getitem top (Key "confidence")) as [c | e].
  2:{ rewrite (bind_lift_raise (Raise e) _ _ e eq_refl). apply Hstop. }
  rewrite (bind_lift_ok (Ok c) _ _ c eq_refl).
  destruct (py_getitem top (Key "server")) as [server | e].
  2:{ rewrite (bind_lift_raise (Raise e) _ _ e eq_refl). apply Hstop. }
  rewrite (bind_lift_ok (Ok server) _ _ server eq_refl).
  destruct (py_getitem top (Key "tool")) as [tool | e].
  2:{ rewrite (bind_lift_raise (Raise e) _ _ e eq_refl). apply Hstop. }
  rewrite (bind_lift_ok (Ok tool) _ _ tool eq_refl).
  destruct (load_schemas_shape self server (PyList [tool]) tr)
    as (r1 & new1 & Hr1 & Hnew1).
  destruct r1 as [schemas | e].
  2:{ rewrite (bind_raise _ _ _ _ _ Hr1). exists (Raise e), new1.
      split; [reflexivity | ].
      destruct Hnew1 as [[-> _] | [tool_list ->]].
      - apply planned_nothing.
      - right. left. eauto. }
  destruct Hnew1 as [[_ [e He]] | [tool_list ->]]; [discriminate He | ].
  rewrite (bind_ok _ _ _ _ _ Hr1).
  rewrite (bind_lift_ok (Ok tool) _ _ tool eq_refl).
  destruct (list_getitem schemas 0) as [s0 | e].
  2:{ rewrite (bind_lift_raise (Raise e) _ _ e eq_refl).
      eexists (Raise e), _. split; [reflexivity | ]. right. left. eauto. }
  rewrite (bind_lift_ok (Ok s0) _ _ s0 eq_refl).
  destruct (infer_arguments_returns self tool s0 task
              (tr ++ [full_command self (schema_command server tool_list)])%list)
    as [args Hargs].
  rewrite (bind_ok _ _ _ _ _ Hargs).
  rewrite (bind_lift_ok (Ok server) _ _ server eq_refl).
  rewrite (bind_lift_ok (Ok tool) _ _ tool eq_refl).
  destruct (exec_tool_runs_once self server tool args
              (tr ++ [full_command self (schema_command server tool_list)])%list)
    as [r Hr].
  rewrite Hr.
  exists r, [full_command self (schema_command server tool_list);
             full_command self (exec_command server tool args)].
  split; [rewrite <- app_assoc; reflexivity | ].
  right. right. exists server, tool_list, (full_command self (exec_command server tool args)).
  split; [reflexivity | left; eauto].
Qed.

Lemma batch_strategy_shape self task suggested tr :
  exists r new,
    batch_strategy self task suggested tr = (r, (tr ++ new)%list)
    /\ planned_calls self r new.
Proof.
  assert (Hstop : forall e, exists r new,
             (@Raise value e, tr) = (r, (tr ++ new)%list) /\ planned_calls self r new).
  { intro e. exists (Raise e), []. rewrite app_nil_r.
    split; [reflexivity | apply planned_nothing]. }
  unfold batch_strategy.
  destruct (py_getitem suggested (Key "server")) as [server | e].
  2:{ rewrite (bind_lift_raise (Raise e) _ _ e eq_refl). apply Hstop. }
  rewrite (bind_lift_ok (Ok server) _ _ server eq_refl).
  destruct (py_getitem suggested (Key "operations")) as [operations | e].
  2:{ rewrite (bind_lift_raise (Raise e) _ _ e eq_refl). apply Hstop. }
  rewrite (bind_lift_ok (Ok operations) _ _ operations eq_refl).
  destruct (py_len operations) as [n | e].
  2:{ rewrite (bind_lift_raise (Raise e) _ _ e eq_refl). apply Hstop. }
  rewrite (bind_lift_ok (Ok n) _ _ n eq_refl).
  destruct (load_schemas_shape self server operations tr)
    as (r1 & new1 & Hr1 & Hnew1).
  destruct r1 as [schemas | e].
  2:{ rewrite (bind_raise _ _ _ _ _ Hr1). exists (Raise e), new1.
      split; [reflexivity | ].
      destruct Hnew1 as [[-> _] | [tool_list ->]].
      - apply planned_nothing.
      - right. left. eauto. }
  destruct Hnew1 as [[_ [e He]] | [tool_list ->]]; [discriminate He | ].
  rewrite (bind_ok _ _ _ _ _ Hr1).
  destruct (py_iter operations) as [names | e].
  2:{ rewrite (bind_lift_raise (Raise e) _ _ e eq_refl).
      eexists (Raise e), _. split; [reflexivity | ]. right. left. eauto. }
  rewrite (bind_lift_ok (Ok names) _ _ names eq_refl).
  pose proof (quiet_result _
                (tr ++ [full_command self (schema_command server tool_list)])%list
                (build_batch_ops_quiet self schemas names task)) as Hbuild.
  destruct (fst (build_batch_ops self schemas names task
                   (tr ++ [full_command self (schema_command server tool_list)])%list))
    as [ops | e].
  2:{ rewrite (bind_raise _ _ _ _ _ Hbuild).
      eexists (Raise e), _. split; [reflexivity | ]. right. left. eauto. }
  rewrite (bind_ok _ _ _ _ _ Hbuild).
  destruct (batch_runs_once self server ops false
              (tr ++ [full_command self (schema_command server tool_list)])%list)
    as [r Hr].
  rewrite Hr.
  exists r, [full_command self (schema_command server tool_list);
             full_command self (batch_command server ops false)].
  split; [rewrite <- app_assoc; reflexivity | ].
  right. right.
  exists server, tool_list, (full_command self (batch_command server ops false)).
  split; [reflexivity | right; eauto].
Qed.

(** X22.  Every run of [execute_task] starts with the Discovery request
    and then runs at most a Schema request followed by at most one last
    request, the Execution of one tool or a Batch with the transactional
    flag off; it repeats no request.  A run that returns a result has run
    exactly these three commands. *)
Theorem run_is_at_most_three_commands :
  forall self task tr,
    exists r new,
      execute_task self task tr
      = (r, (tr ++ full_command self (discover_command task) :: new)%list)
      /\ planned_calls self r new
      /\ List.length new <= 2
      /\ (forall v, r = Ok v -> List.length new = 2).
Proof.
  intros self task tr.
  assert (Hshape : exists r new,
             execute_task self task tr
             = (r, (tr ++ full_command self (discover_command task) :: new)%list)
             /\ planned_calls self r new).
  { unfold execute_task.
    destruct (discover_runs_once self task tr) as [r0 Hr0].
    destruct r0 as [discovery | e].
    2:{ rewrite (bind_raise _ _ _ _ _ Hr0). exists (Raise e), [].
        split; [reflexivity | apply planned_nothing]. }
    rewrite (bind_ok _ _ _ _ _ Hr0).
    destruct (py_get discovery "matches" (PyList [])) as [matches | e].
    2:{ rewrite (bind_lift_raise (Raise e) _ _ e eq_refl). exists (Raise e), [].
        split; [reflexivity | apply planned_nothing]. }
    rewrite (bind_lift_ok (Ok matches) _ _ matches eq_refl).
    destruct (py_truthy matches); cbn [negb].
    2:{ exists (Raise NoMatchError), []. split; [reflexivity | apply planned_nothing]. }
    destruct (py_get discovery "suggested_batch" PyNone) as [suggested | e].
    2:{ rewrite (bind_lift_raise (Raise e) _ _ e eq_refl). exists (Raise e), [].
        split; [reflexivity | apply planned_nothing]. }
    rewrite (bind_lift_ok (Ok suggested) _ _ suggested eq_refl).
    destruct (py_truthy suggested).
    - destruct (batch_strategy_shape self task suggested
                  (tr ++ [full_command self (discover_command task)])%list)
        as (r & new & Hr & Hnew).
      exists r, new. rewrite Hr, <- app_assoc. split; [reflexivity | exact Hnew].
    - destruct (single_strategy_shape self task matches
                  (tr ++ [full_command self (discover_command task)])%list)
        as (r & new & Hr & Hnew).
      exists r, new. rewrite Hr, <- app_assoc. split; [reflexivity | exact Hnew]. }
  destruct Hshape as (r & new & Hrun & Hplanned).
  exists r, new. split; [exact Hrun | ]. split; [exact Hplanned | ].
  destruct Hplanned as [[[e ->] ->] | [(server & tl & -> & [e ->])
                                      | (server & tl & final & -> & _)]];
    simpl; split; try lia; intros v Hv; try discriminate Hv; reflexivity.
Qed.

End RunShape.

(** * The further properties on the scripted host *)

Section OnNumbers.

(** The task "read the file 'notes.txt'". *)
Lemma infer_path_first_quoted_witness :
  infer_arguments default_agent (PyStr "read_file") PyNone notes_task []
  = (Ok notes_args, []).
Proof.
  exact (infer_path_first_quoted default_agent PyNone
           "read the file " "'"%char "n"%char "otes.txt" "'"%char "" []
           eq_refl eq_refl eq_refl eq_refl).
Defined.

(** The task of scenario B. *)
Lemma infer_url_first_url_witness :
  infer_arguments default_agent (PyStr "browser_navigate") PyNone
    browser_task []
  = (Ok [("url", PyStr "https://example.org")], []).
Proof.
  exact (infer_url_first_url default_agent PyNone
           "navigate to " true "e"%char "xample.org" " and take a screenshot" []
           eq_refl eq_refl eq_refl).
Defined.

(** The lookup of the second schema of scenario B. *)
Lemma find_schema_returns_first_named_witness :
  exists before after name,
    browser_schemas_list
    = (before
       ++ PyDict [("name", PyStr "browser_screenshot"); ("parameters", PyDict [])]
       :: after)%list
    /\ py_getitem
         (PyDict [("name", PyStr "browser_screenshot"); ("parameters", PyDict [])])
         (Key "name") = Ok name
    /\ py_eq name (PyStr "browser_screenshot") = true.
Proof.
  destruct (find_schema_returns_first_named browser_schemas_list
              (PyStr "browser_screenshot")
              (PyDict [("name", PyStr "browser_screenshot"); ("parameters", PyDict [])])
              eq_refl)
    as [[Hnone _] | (before & after & name & Hsplit & Hname & Heq & _)].
  - discriminate Hnone.
  - exists before, after, name. repeat split; assumption.
Defined.

End OnNumbers.

Section OnFailingHosts.

(** The process cannot be started at all. *)
Lemma transport_failure_aborts_run_witness :
  main (W := host_down) ["python-agent.py"; browser_task]
  = (Failed (RuntimeError
               "Failed to execute MCP command: [Errno 12] Cannot allocate memory"),
     [cli (discover_command browser_task)]).
Proof.
  exact (proj1 (transport_failure_aborts_run (W := host_down)
                  "python-agent.py" browser_task []
                  "[Errno 12] Cannot allocate memory" eq_refl)).
Defined.

(** The backend knows no Discovery request and writes nothing. *)
Lemma gateway_error_propagates_witness :
  execute_task (W := host_no_data) default_agent browser_task []
  = (Raise (ValueError "Failed to parse MCP response: "),
     [cli (discover_command browser_task)]).
Proof.
  exact (proj2
           (proj1 (gateway_error_propagates (W := host_no_data) default_agent
                     (discover_command browser_task)
                     (ValueError "Failed to parse MCP response: ")
                     [] [cli (discover_command browser_task)] eq_refl)
                  browser_task eq_refl)).
Defined.

(** Discovery is refused and names no error. *)
Lemma phase_failure_message_witness :
  discover (W := host_refused) default_agent browser_task []
  = (Raise (RuntimeError "Discovery failed: Unknown error"),
     [cli (discover_command browser_task)]).
Proof.
  exact (proj1 (phase_failure_message (W := host_refused) default_agent
                  (PyDict [("success", PyBool false)]) (PyBool false) []
                  [] [cli (discover_command browser_task)]
                  eq_refl eq_refl eq_refl)
               browser_task eq_refl).
Defined.

(** Discovery answers with a JSON array. *)
Lemma malformed_envelope_raises_attribute_error_witness :
  discover (W := host_array) default_agent browser_task []
  = (Raise AttributeError, [cli (discover_command browser_task)]).
Proof.
  exact (proj1 (malformed_envelope_raises_attribute_error (W := host_array)
                  default_agent (PyList [])
                  [] [cli (discover_command browser_task)]
                  (or_introl eq_refl))
               browser_task eq_refl).
Defined.

(** The tool is executed and the response has a null [metadata]. *)
Lemma non_object_metadata_fails_phase_witness :
  exec_tool (W := host_null_metadata) default_agent (PyStr "fs") (PyStr "read_file")
    notes_args
    [cli (discover_command notes_task); cli "tools schema fs read_file"]
  = (Raise AttributeError,
     [cli (discover_command notes_task); cli "tools schema fs read_file";
      exec_text "fs" "read_file" notes_args]).
Proof.
  exact (proj1
           (proj2 (non_object_metadata_fails_phase (W := host_null_metadata)
                     default_agent null_metadata_response (PyBool true) PyNone
                     [cli (discover_command notes_task); cli "tools schema fs read_file"]
                     [cli (discover_command notes_task); cli "tools schema fs read_file";
                      exec_text "fs" "read_file" notes_args]
                     eq_refl eq_refl eq_refl eq_refl))
           (PyStr "fs") (PyStr "read_file") notes_args eq_refl).
Defined.

(** Discovery reports success and has no [data]. *)
Lemma discovery_without_data_witness :
  execute_task (W := host_bare_success) default_agent browser_task []
  = (Raise (RuntimeError "No matching tools found for the task"),
     [cli (discover_command browser_task)]).
Proof.
  exact (proj2
           (proj1 (discovery_without_data (W := host_bare_success) default_agent
                     browser_task [] [("success", PyBool true)] (PyBool true) []
                     [cli (discover_command browser_task)]
                     eq_refl eq_refl eq_refl eq_refl)
                  eq_refl)).
Defined.

(** Discovery suggests a batch that names no server. *)
Lemma suggested_batch_missing_field_witness :
  discover (W := host_batch_no_server) default_agent browser_task []
  = (Raise (KeyError (Key "server")), [cli (discover_command browser_task)]).
Proof.
  exact (proj1 (suggested_batch_missing_field (W := host_batch_no_server)
                  default_agent browser_task []
                  (success (PyDict [("matches", browser_matches);
                                    ("suggested_batch", PyDict serverless_batch)]))
                  (PyBool true)
                  [("matches", browser_matches);
                   ("suggested_batch", PyDict serverless_batch)]
                  (match browser_matches with PyList l => l | _ => [] end)
                  serverless_batch
                  [cli (discover_command browser_task)]
                  eq_refl eq_refl eq_refl eq_refl eq_refl eq_refl eq_refl)
               eq_refl).
Defined.

(** The only match has no confidence. *)
Lemma match_without_confidence_witness :
  execute_task (W := host_no_confidence) default_agent notes_task []
  = (Raise (KeyError (Key "confidence")), [cli (discover_command notes_task)]).
Proof.
  exact (match_without_confidence (W := host_no_confidence) default_agent
           notes_task [] (PyDict [("matches", PyList [PyDict unrated_match])])
           [cli (discover_command notes_task)] unrated_match [] PyNone
           eq_refl eq_refl eq_refl eq_refl eq_refl).
Defined.

(** The only match names its tool by the number 7. *)
Lemma non_string_tool_stops_before_schema_witness :
  execute_task (W := host_numeric_tool) default_agent notes_task []
  = (Raise TypeError, [cli (discover_command notes_task)]).
Proof.
  exact (non_string_tool_stops_before_schema (W := host_numeric_tool) default_agent
           notes_task [] (PyDict [("matches", PyList [numbered_match])])
           [cli (discover_command notes_task)] numbered_match [] PyNone
           (PyNum (dec 9 1)) (PyStr "fs") (PyNum (dec 7 0))
           eq_refl eq_refl eq_refl eq_refl eq_refl eq_refl eq_refl eq_refl).
Defined.

(** Scenario A on a backend that knows no Schema request. *)
Lemma schema_failure_aborts_run_witness :
  execute_task (W := host_schema_down) default_agent notes_task []
  = (Raise (ValueError "Failed to parse MCP response: "),
     [cli (discover_command notes_task); cli "tools schema fs read_file"]).
Proof.
  exact (proj2 (schema_failure_aborts_run (W := host_schema_down) default_agent
                  notes_task [] (PyDict [("matches", PyList [fs_match])])
                  [cli (discover_command notes_task)] (PyList [fs_match]) PyNone
                  (ValueError "Failed to parse MCP response: ")
                  [cli (discover_command notes_task); cli "tools schema fs read_file"]
                  eq_refl eq_refl eq_refl eq_refl)
               fs_match [] (PyNum (dec 9 1)) (PyStr "fs") (PyStr "read_file")
               eq_refl eq_refl eq_refl eq_refl eq_refl eq_refl).
Defined.

(** Scenario B with a Schema response that has no [data]. *)
Lemma batch_branch_fails_on_unreadable_schema_witness :
  execute_task (W := host_B_no_data) default_agent browser_task []
  = (Raise TypeError,
     [cli (discover_command browser_task);
      cli "tools schema browser browser_navigate browser_screenshot"]).
Proof.
  exact (batch_branch_fails_on_unreadable_schema (W := host_B_no_data)
           default_agent browser_task []
           (PyDict [("matches", browser_matches); ("suggested_batch", browser_batch)])
           [cli (discover_command browser_task)] browser_matches browser_batch
           (PyStr "browser") (PyStr "browser_navigate") [PyStr "browser_screenshot"]
           PyNone []
           [cli (discover_command browser_task);
            cli "tools schema browser browser_navigate browser_screenshot"]
           eq_refl eq_refl eq_refl eq_refl eq_refl eq_refl eq_refl eq_refl eq_refl).
Defined.

End OnFailingHosts.

Section OnWorkingHosts.

(** Scenario A on a backend that executes the tool. *)
Lemma single_path_success_witness :
  main (W := host_read_ok) ["python-agent.py"; notes_task]
  = (Printed (PyStr "the notes"),
     [cli (discover_command notes_task); cli "tools schema fs read_file";
      exec_text "fs" "read_file" notes_args]).
Proof.
  exact (proj1 (single_path_success (W := host_read_ok)
                  "python-agent.py" notes_task []
                  (PyDict [("matches", PyList [fs_match])])
                  [cli (discover_command notes_task)]
                  fs_match [] PyNone (PyNum (dec 9 1)) (PyStr "fs") (PyStr "read_file")
                  read_file_schema []
                  [cli (discover_command notes_task); cli "tools schema fs read_file"]
                  notes_args (success (PyStr "the notes")) (PyStr "the notes")
                  [cli (discover_command notes_task); cli "tools schema fs read_file";
                   exec_text "fs" "read_file" notes_args]
                  eq_refl eq_refl eq_refl eq_refl eq_refl eq_refl eq_refl
                  eq_refl eq_refl eq_refl (success_envelope_successful _ _))).
Defined.

(** The planning of scenario B. *)
Lemma batch_operations_follow_names_witness :
  Forall2 (fun name op =>
             exists args,
               infer_arguments default_agent name PyNone browser_task [] = (Ok args, [])
               /\ op = PyDict [("tool", name); ("args", PyDict args)])
          [PyStr "browser_navigate"; PyStr "browser_screenshot"] browser_ops.
Proof.
  exact (proj2 (batch_operations_follow_names default_agent
                  browser_schemas_list
                  [PyStr "browser_navigate"; PyStr "browser_screenshot"]
                  browser_task [] browser_ops [] eq_refl)).
Defined.

Lemma batch_planning_tolerates_missing_schemas_witness :
  exists ops,
    build_batch_ops default_agent browser_schemas_list
      [PyStr "browser_navigate"; PyStr "browser_screenshot"; PyStr "browser_click"]
      browser_task []
    = (Ok ops, [])
    /\ List.length ops = 3.
Proof.
  apply (batch_planning_tolerates_missing_schemas default_agent
           browser_schemas_list
           [PyStr "browser_navigate"; PyStr "browser_screenshot"; PyStr "browser_click"]
           browser_task []).
  repeat constructor; eexists _, _; split; reflexivity.
Defined.

(** Scenario B. *)
Lemma batch_path_success_witness :
  execute_task (W := host_B) default_agent browser_task []
  = (Ok (PyStr "done"),
     [cli (discover_command browser_task);
      cli "tools schema browser browser_navigate browser_screenshot";
      batch_text "browser" browser_ops]).
Proof.
  exact (proj1 (batch_path_success (W := host_B) default_agent browser_task []
                  (PyDict [("matches", browser_matches);
                           ("suggested_batch", browser_batch)])
                  [cli (discover_command browser_task)] browser_matches browser_batch
                  (PyStr "browser")
                  [PyStr "browser_navigate"; PyStr "browser_screenshot"]
                  browser_schemas_list
                  [cli (discover_command browser_task);
                   cli "tools schema browser browser_navigate browser_screenshot"]
                  browser_ops (success (PyStr "done")) (PyStr "done")
                  [cli (discover_command browser_task);
                   cli "tools schema browser browser_navigate browser_screenshot";
                   batch_text "browser" browser_ops]
                  eq_refl eq_refl eq_refl eq_refl eq_refl eq_refl eq_refl
                  eq_refl eq_refl eq_refl (success_envelope_successful _ _))).
Defined.

End OnWorkingHosts.

Section DeepOutput.
#[local] Existing Instance host_deep.


End DeepOutput.
